(** * Live polling pages: cache, rolling history, metrics, auto-refresh

    A shallow embedding of the two Streamlit pages of the repository,
    [Home.py] (CoinGecko prices) and [pages/weather_live.py] (Open-Meteo
    weather), and the properties of their poll / cache / append / prune /
    metrics cycle.

    Conventions.
    - Instants and durations are integers ([Z]) counted in microseconds,
      the resolution of Python's [datetime] and [timedelta].
    - Prices, temperatures and wind speeds are IEEE binary64 numbers, the
      kernel's [float]; Python's [a - b] on floats is [PrimFloat.sub].
    - A script run is a function of what the run reads from outside (the
      widgets, the clocks, the reply the network gives if asked) and of the
      state that survives between runs (the [st.cache_data] store, the
      history deque in [st.session_state], the number of HTTP requests
      sent so far).
    - One browser session is modelled; the cache, which Streamlit shares
      between sessions, is used by this session only. *)

From Stdlib Require Import ZArith Floats.PrimFloat.
From stdpp Require Import base option list sorting strings gmap.

Local Open Scope Z_scope.

(** ** Python values shared by both pages *)

Module Py.

(** The exceptions that can leave the code of the pages.  A
    [requests.RequestException] never does: both fetch functions catch
    it, so it is not a constructor here. *)
Inductive exn : Type :=
| ValueError (msg : string)
| KeyError (key : string)
| TypeError (msg : string)
| AttributeError (msg : string)
| IndexError (msg : string).

(** The result of evaluating Python code that may raise. *)
Inductive outcome (A : Type) : Type :=
| Ret (a : A)
| Raise (e : exn).
Arguments Ret {A} a.
Arguments Raise {A} e.

(** The line feed of ["\n"]. *)
Definition NL : string := String (Ascii.ascii_of_nat 10) "".

(** Truth value of an [Optional[str]] in [if err:]. *)
Definition truthy (o : option string) : bool :=
  match o with
  | Some s => negb (String.eqb s "")
  | None => false
  end.

(** [timedelta(seconds=s)], [timedelta(minutes=m)] and
    [timedelta(hours=h)], in microseconds. *)
Definition timedelta_seconds (s : Z) : Z := s * 1000000.
Definition timedelta_minutes (m : Z) : Z := timedelta_seconds (m * 60).
Definition timedelta_hours (h : Z) : Z := timedelta_minutes (h * 60).

(** [pd.isna] / [pd.notna] on a float. *)
Definition isna (x : float) : bool := PrimFloat.is_nan x.
Definition notna (x : float) : bool := negb (isna x).

(** [seq.iloc[i]] / [seq[i]] with Python's negative indices; [None]
    stands for the [IndexError] of an index out of range. *)
Definition iloc {A} (l : list A) (i : Z) : option A :=
  if i <? 0
  then (if - i <=? Z.of_nat (length l)
        then l !! Z.to_nat (Z.of_nat (length l) + i) else None)
  else l !! Z.to_nat i.

(** [len(seq)]. *)
Definition len {A} (l : list A) : Z := Z.of_nat (length l).

(** What [requests.get(url, timeout=10, headers=HEADERS)] can produce:
    it raises a [RequestException] (connection error, timeout, ...)
    whose [str()] is [msg], or it returns a response.  A response is
    described by what the pages read from it: the status code, the
    [Retry-After] header if present, the text of the [HTTPError] that
    [raise_for_status()] builds for it, and the body, of a type [B]
    chosen by each page. *)
Inductive http_reply (B : Type) : Type :=
| ConnectionFailed (msg : string)
| Response (status_code : Z) (retry_after : option string)
           (error_text : string) (body : B).
Arguments ConnectionFailed {B} msg.
Arguments Response {B} status_code retry_after error_text body.

(** [resp.raise_for_status()] raises for the client and server error
    codes. *)
Definition is_error_status (status_code : Z) : bool :=
  (400 <=? status_code) && (status_code <? 600).

(** The two messages both fetch functions build. *)
Definition too_many_requests (retry_after : option string) : string :=
  "429 Too Many Requests — try again after "
  +:+ default "a bit" retry_after +:+ "s".
Definition network_error (e : string) : string := "Network/HTTP error: " +:+ e.

(** [deque.popleft()] repeated while the deque is not empty and its
    first element is older than [cutoff]: the loop of [prune_history]
    and [prune_weather]. *)
Fixpoint popleft_while {A} (ts : A → Z) (cutoff : Z) (q : list A) : list A :=
  match q with
  | [] => []
  | x :: q' => if ts x <? cutoff then popleft_while ts cutoff q' else q
  end.

End Py.

(** ** [st.cache_data(ttl=...)] *)

Module Streamlit.
Import Py.

Section cache_data.
(** [K] is the type of the arguments of the decorated function (the
    cache key), [V] of its return value, [W] of the outside world the
    function acts on. *)
Context {K V W : Type} `{Countable K}.

Record cache_entry : Type := CacheEntry { value : V; fetched_at : Z }.

(** Time to live, in microseconds. *)
Variable ttl : Z.
(** The decorated function. *)
Variable f : K → W → outcome V * W.

Definition fresh (e : cache_entry) (t : Z) : bool := t - fetched_at e <? ttl.

(** The body runs; its value is stored under the key when it returns.
    Nothing is stored when it raises, and the exception propagates. *)
Definition call_through (k : K) (t : Z) (c : gmap K cache_entry) (w : W)
  : outcome V * gmap K cache_entry * W :=
  match f k w with
  | (Ret v, w') => (Ret v, <[k := CacheEntry v t]> c, w')
  | (Raise e, w') => (Raise e, c, w')
  end.

(** The stored value for the key, when there is one younger than
    [ttl] at cache-clock reading [t]. *)
Definition cached (c : gmap K cache_entry) (k : K) (t : Z) : option V :=
  match c !! k with
  | Some e => if fresh e t then Some (value e) else None
  | None => None
  end.

(** A call of the decorated function at cache-clock reading [t], as
    Streamlit documents [ttl] (the time an entry is kept): a stored
    value younger than [ttl] is returned as it is, and neither the store
    nor the world changes; otherwise the body runs. *)
Definition call (k : K) (t : Z) (c : gmap K cache_entry) (w : W)
  : outcome V * gmap K cache_entry * W :=
  match cached c k t with
  | Some v => (Ret v, c, w)
  | None => call_through k t c w
  end.

(** [f.clear()]: every entry of the function is dropped. *)
Definition clear (c : gmap K cache_entry) : gmap K cache_entry := ∅.

End cache_data.

Arguments cache_entry : clear implicits.
Arguments CacheEntry {V} value fetched_at.

(** What a run leaves behind in the browser tab: the script ran to its
    end and showed a page (and, with auto-refresh on, then slept
    [rerun_after] seconds, cleared the cache and called [st.rerun()]);
    or the manual refresh button cut the run short with [st.rerun()]; or
    an exception escaped and Streamlit shows its traceback. *)
Inductive run_end (P : Type) : Type :=
| Rendered (p : P) (rerun_after : option Z)
| ManualRerun
| Crashed (e : exn).
Arguments Rendered {P} p rerun_after.
Arguments ManualRerun {P}.
Arguments Crashed {P} e.

(** The page a run showed, if it showed one. *)
Definition rendered {P} (e : run_end P) : option P :=
  match e with
  | Rendered p _ => Some p
  | ManualRerun | Crashed _ => None
  end.

(** The seconds a run slept before it called [st.rerun()] by itself,
    if it did. *)
Definition slept {P} (e : run_end P) : option Z :=
  match e with
  | Rendered _ rerun_after => rerun_after
  | ManualRerun | Crashed _ => None
  end.

(** The controls both pages draw: the slider, the toggle, the button. *)
Record widgets : Type := Widgets {
  refresh_sec : Z;
  auto_refresh : bool;
  manual_refresh : bool
}.

End Streamlit.

(** ** [Home.py]: the price page *)

Module Home.
Import Py Streamlit.

Definition COINS : list string := ["bitcoin"; "ethereum"].
Definition VS : string := "usd".

Definition build_url (ids : list string) : string :=
  "https://api.coingecko.com/api/v3/simple/price?ids="
  +:+ String.concat "," ids +:+ "&vs_currencies=" +:+ VS.

Definition API_URL : string := build_url COINS.

(** A row of the frame [fetch_prices] returns, after
    [.T.reset_index().rename(columns={"index": "coin"})]: the ["coin"]
    cell and the cells the coin's object had, by column name. *)
Definition row : Type := string * list (string * float).
Definition frame : Type := list row.

Definition SAMPLE_DF : frame :=
  [("bitcoin", [(VS, 68000%float)]); ("ethereum", [(VS, 3500%float)])].

(** The parsed JSON of a response body, for the shapes modelled here: a
    bare number, an object whose values are all strings or numbers (an
    error report such as [{"error": "..."}]), and an object whose values
    are objects of numbers (the documented shape, [{"bitcoin": {"usd":
    68000}, ...}], keys in the order of the text).

    The model stops there.  The inner keys stand for currency codes, and
    the inner values for JSON numbers: a [null] or a string in the place
    of a price, which [float(row[VS])] refuses in the append loop
    ([TypeError], [ValueError]), has no counterpart here.  Nor is a coin
    whose object has a key ["coin"] or ["index"] treated as the source
    treats it (see [to_frame]).  The properties that read a price or
    follow a frame through a run are stated for answers without these. *)
Inductive scalar : Type :=
| JStr (s : string)
| JNum (x : float).

Inductive json : Type :=
| JNumber (x : float)
| JFlat (fields : list (string * scalar))
| JNested (fields : list (string * list (string * float))).

(** A body is JSON or it is not; [resp.json()] raises requests'
    [JSONDecodeError], a [RequestException] whose [str()] is [msg], on
    the latter. *)
Inductive price_body : Type :=
| NotJson (msg : string)
| Json (data : json).

(** [pd.DataFrame(data).T.reset_index().rename(columns={"index":
    "coin"})].  pandas refuses a scalar and a dict of scalars; an empty
    dict gives a frame without rows.  For an object of objects the rows
    are the coins, and the columns ["coin"] and the inner keys.

    That is the frame of the source as long as no inner key is ["coin"]
    or ["index"].  An inner key ["coin"] gives the real frame two
    columns of that name, which [st.dataframe(df)] refuses with a
    [ValueError] before the append loop; an inner key ["index"] makes
    [reset_index] name the column of coins ["level_0"], and [rename]
    then calls the inner column ["coin"].  Neither is modelled. *)
Definition to_frame (data : json) : outcome frame :=
  match data with
  | JNumber _ => Raise (ValueError "DataFrame constructor not properly called!")
  | JFlat [] => Ret []
  | JFlat (_ :: _) =>
      Raise (ValueError "If using all scalar values, you must pass an index")
  | JNested fields => Ret fields
  end.

(** What [fetch_prices] returns: [(df, error_message)]. *)
Definition fetch_result : Type := option frame * option string.

(** The body of [fetch_prices], before [st.cache_data] wraps it.  [net]
    is the network: the reply it would give to a request for a url.
    The counter is the number of [requests.get] calls made so far. *)
Definition fetch_prices_body (net : string → http_reply price_body)
    (url : string) (sent : nat) : outcome fetch_result * nat :=
  (match net url with
   | ConnectionFailed msg => Ret (None, Some (network_error msg))
   | Response status_code retry_after error_text body =>
       if status_code =? 429
       then Ret (None, Some (too_many_requests retry_after))
       else if is_error_status status_code
       then Ret (None, Some (network_error error_text))
       else match body with
            | NotJson msg => Ret (None, Some (network_error msg))
            | Json data =>
                match to_frame data with
                | Ret df => Ret (Some df, None)
                | Raise e => Raise e
                end
            end
   end, S sent).

(** [@st.cache_data(ttl=300, show_spinner=False)]. *)
Definition TTL : Z := timedelta_seconds 300.

Definition fetch_prices (net : string → http_reply price_body) :=
  call TTL (fetch_prices_body net).

(** A record of the history deque: [{"ts": ..., "coin": ..., "price":
    ...}]. *)
Record sample : Type := Sample { ts : Z; coin : string; price : float }.

(** What survives between the runs of the script. *)
Record session : Type := Session {
  cache : gmap string (cache_entry fetch_result);
  price_history : list sample;
  sent : nat
}.

(** A fresh session: nothing cached, [price_history] just created as an
    empty deque, no request sent. *)
Definition init : session := Session ∅ [] 0.

Definition WINDOW_MINUTES : Z := 30.

(** [prune_history()]; [utcnow] is what [datetime.utcnow()] returns
    inside it. *)
Definition prune_history (utcnow : Z) (h : list sample) : list sample :=
  let cutoff := utcnow - timedelta_minutes WINDOW_MINUTES in
  popleft_while ts cutoff h.

(** [col in df.columns]: a column exists when some coin's object had the
    key. *)
Definition has_column (df : frame) (col : string) : bool :=
  existsb (fun r : row => existsb (fun c => String.eqb (fst c) col) (snd r)) df.

Fixpoint lookup_cell (col : string) (cells : list (string * float)) : option float :=
  match cells with
  | [] => None
  | (c, x) :: cells' => if String.eqb c col then Some x else lookup_cell col cells'
  end.

(** [row[col]] for a row of [df]: a [KeyError] when the frame has no such
    column, NaN when it has but this coin's object lacked the key. *)
Definition cell (df : frame) (r : row) (col : string) : outcome float :=
  if has_column df col
  then Ret (default nan (lookup_cell col (snd r)))
  else Raise (KeyError col).

(** The loop [for _, row in df.iterrows(): price_history.append(...)],
    over the rows still to visit.  The deque keeps what was appended
    before an exception. *)
Fixpoint append_rows (df : frame) (now : Z) (todo : list row) (h : list sample)
  : outcome unit * list sample :=
  match todo with
  | [] => (Ret tt, h)
  | r :: todo' =>
      match cell df r VS with
      | Ret p => append_rows df now todo' (h ++ [Sample now (fst r) p])
      | Raise e => (Raise e, h)
      end
  end.

(** The records the loop appends for the rows [todo] when no lookup
    raises. *)
Definition samples_of (now : Z) (todo : list row) : list sample :=
  map (λ r : row, Sample now (fst r) (default nan (lookup_cell VS (snd r)))) todo.

(** [DataFrame.sort_values("ts")] on the rows of the history frame:
    each row is inserted before the first row later than it, so rows of
    equal [ts] keep their order.  pandas' default sort (quicksort) does
    not promise that for equal keys, so among records of one coin and
    one [ts] the last two rows of the real view may come in another
    order; no property below depends on the order of rows of equal
    [ts]. *)
Fixpoint insert_by_ts (x : sample) (l : list sample) : list sample :=
  match l with
  | [] => [x]
  | y :: l' => if ts y <=? ts x then y :: insert_by_ts x l' else x :: l
  end.

Definition sort_values (l : list sample) : list sample :=
  fold_left (fun acc x => insert_by_ts x acc) l [].

(** [hist_df[hist_df["coin"] == coin].sort_values("ts")]. *)
Definition series_view (hist_df : list sample) (c : string) : list sample :=
  sort_values (filter (fun s => coin s = c) hist_df).

(** The three lines that compute [current], [prev] and [delta] from the
    view [cdf] of one coin. *)
Definition compute (cdf : list sample) : option float * option float :=
  let current := if 0 <? len cdf then price <$> iloc cdf (-1) else None in
  let prev := if 1 <? len cdf then price <$> iloc cdf (-2) else None in
  let delta :=
    match current, prev with
    | Some c, Some p => Some (c - p)%float
    | _, _ => None
    end in
  (current, delta).

(** What [st.metric] is given for a coin, before formatting. *)
Record metric : Type := Metric {
  label : string;
  current : option float;
  delta : option float
}.

Definition metric_of (hist_df : list sample) (c : string) : metric :=
  let m := compute (series_view hist_df c) in
  Metric c (fst m) (snd m).

(** What a run reads from outside. *)
Record run_input : Type := RunInput {
  ui : widgets;
  net : string → http_reply price_body;
  cache_clock : Z;        (* the cache's timer when [fetch_prices] is called *)
  now : Z;                (* [now = datetime.utcnow()] before the append loop *)
  prune_clock : Z         (* [datetime.utcnow()] inside [prune_history] *)
}.

(** What a completed run shows. *)
Record page : Type := Page {
  warning : option string;    (* [st.warning] *)
  table : frame;              (* [st.dataframe(df)]: the current snapshot *)
  metrics : list metric;      (* one [st.metric] per coin of [COINS] *)
  chart : list sample         (* [hist_df], the data of the line chart *)
}.

Definition sample_notice (err : string) : string :=
  err +:+ NL +:+ "Showing sample data so the demo continues.".

(** One run of the script.  [st.dataframe(df)] is taken to show the
    frame: it does for every frame whose column names are distinct (see
    [to_frame]). *)
Definition run (i : run_input) (s : session) : run_end page * session :=
  if manual_refresh (ui i)
  then (ManualRerun, Session (clear (cache s)) (price_history s) (sent s))
  else
    match fetch_prices (net i) API_URL (cache_clock i) (cache s) (sent s) with
    | (Raise e, c, n) => (Crashed e, Session c (price_history s) n)
    | (Ret (df, err), c, n) =>
        let warn := if truthy err then sample_notice <$> err else None in
        let df := if truthy err then Some SAMPLE_DF else df in
        match df with
        | None =>
            (Crashed (AttributeError "'NoneType' object has no attribute 'iterrows'"),
             Session c (price_history s) n)
        | Some df =>
            match append_rows df (now i) df (price_history s) with
            | (Raise e, h) => (Crashed e, Session c h n)
            | (Ret _, h) =>
                let h := prune_history (prune_clock i) h in
                let p := Page warn df (map (metric_of h) COINS) h in
                if auto_refresh (ui i)
                then (Rendered p (Some (refresh_sec (ui i))), Session (clear c) h n)
                else (Rendered p None, Session c h n)
            end
        end
    end.

(** Successive runs of the script in one session, each with its own
    inputs. *)
Fixpoint runs (inputs : list run_input) (s : session)
  : list (run_end page) * session :=
  match inputs with
  | [] => ([], s)
  | i :: inputs' =>
      let (e, s') := run i s in
      let (es, s'') := runs inputs' s' in
      (e :: es, s'')
  end.

End Home.

(** ** [pages/weather_live.py]: the weather page *)

Module WeatherLive.
Import Py Streamlit.

(** [r.json()["current"]] of a well-formed answer: the reported time
    (as [pd.to_datetime] reads it) and the two measurements, each a JSON
    number. *)
Record reading : Type := Reading {
  time : Z;
  temperature_2m : float;
  wind_speed_10m : float
}.

(** A body is not JSON, or it is a JSON object, with or without the key
    ["current"].

    The model stops there: when the key is present its value is a
    well-formed reading.  An object under ["current"] that lacks one of
    the three keys, or holds [null] for a measurement, makes the source
    raise inside [get_weather] ([KeyError], [TypeError] from
    [float(None)]); such answers have no counterpart here.  The
    properties about an answer that holds ["current"] are about
    well-formed readings. *)
Inductive weather_body : Type :=
| NotJson (msg : string)
| Json (current : option reading).

(** A row of the one-row frame [get_weather] returns. *)
Record wrow : Type := WRow { wtime : Z; temperature : float; wind : float }.
Definition frame : Type := list wrow.

Definition fetch_result : Type := option frame * option string.

(** The body of [get_weather], before [st.cache_data] wraps it.  The
    function has no argument: its cache key is [()]. *)
Definition get_weather_body (net : http_reply weather_body)
    (_ : unit) (sent : nat) : outcome fetch_result * nat :=
  (match net with
   | ConnectionFailed msg => Ret (None, Some (network_error msg))
   | Response status_code retry_after error_text body =>
       if status_code =? 429
       then Ret (None, Some (too_many_requests retry_after))
       else if is_error_status status_code
       then Ret (None, Some (network_error error_text))
       else match body with
            | NotJson msg => Ret (None, Some (network_error msg))
            | Json None => Raise (KeyError "current")
            | Json (Some j) =>
                Ret (Some [WRow (time j) (temperature_2m j) (wind_speed_10m j)],
                     None)
            end
   end, S sent).

(** [@st.cache_data(ttl=600, show_spinner=False)]. *)
Definition TTL : Z := timedelta_seconds 600.

Definition get_weather (net : http_reply weather_body) :=
  call TTL (get_weather_body net) tt.

(** A record of the history deque: [{"ts": ..., "temperature": ...,
    "wind": ...}], the measurements [None] when missing. *)
Record sample : Type := Sample {
  ts : Z;
  temp : option float;
  wnd : option float
}.

Record session : Type := Session {
  cache : gmap unit (cache_entry fetch_result);
  weather_history : list sample;
  sent : nat
}.

Definition init : session := Session ∅ [] 0.

Definition WINDOW_HOURS : Z := 6.

(** [prune_weather()]; [utcnow] is what [datetime.utcnow()] returns
    inside it. *)
Definition prune_weather (utcnow : Z) (h : list sample) : list sample :=
  let cutoff := utcnow - timedelta_hours WINDOW_HOURS in
  popleft_while ts cutoff h.

(** [float(x) if pd.notna(x) else None]. *)
Definition float_or_none (x : float) : option float :=
  if notna x then Some x else None.

(** [pd.isna] / [pd.notna] on a cell of the history frame, where a
    missing measurement is [None] or NaN. *)
Definition isna_cell (c : option float) : bool :=
  match c with
  | None => true
  | Some x => isna x
  end.

(** A cell as a metric can use it: nothing when it is missing. *)
Definition present (c : option float) : option float :=
  if isna_cell c then None else c.

(** The lines that compute what a metric shows from a column [col] of
    the history frame [hist]: the value ([None] for the dash) and the
    delta.  Nothing is computed when the frame is empty. *)
Definition compute (col : list (option float)) : option float * option float :=
  if 0 <? len col
  then
    let current : option float := mjoin (iloc col (-1)) in
    let prev : option (option float) :=
      if 1 <? len col then iloc col (-2) else None in
    let delta :=
      match prev with
      | None => None
      | Some prev_t =>
          if isna_cell prev_t || isna_cell current then None
          else match current, prev_t with
               | Some c, Some p => Some (c - p)%float
               | _, _ => None
               end
      end in
    (if isna_cell current then None else current, delta)
  else (None, None).

Record run_input : Type := RunInput {
  ui : widgets;
  net : http_reply weather_body;
  cache_clock : Z;        (* the cache's timer when [get_weather] is called *)
  now : Z;                (* [now = datetime.utcnow()] of the fallback *)
  prune_clock : Z         (* [datetime.utcnow()] inside [prune_weather] *)
}.

Record page : Type := Page {
  warning : option string;                       (* [st.warning] *)
  table : frame;                                 (* [st.dataframe(wdf)] *)
  temperature_metric : option float * option float;
  wind_metric : option float * option float;
  chart : list sample                            (* [hist] *)
}.

(** One run of the script. *)
Definition run (i : run_input) (s : session) : run_end page * session :=
  if manual_refresh (ui i)
  then (ManualRerun, Session (clear (cache s)) (weather_history s) (sent s))
  else
    match get_weather (net i) (cache_clock i) (cache s) (sent s) with
    | (Raise e, c, n) => (Crashed e, Session c (weather_history s) n)
    | (Ret (wdf, werr), c, n) =>
        let warn := if truthy werr then werr else None in
        let wdf := if truthy werr
                   then Some [WRow (now i) nan nan]
                   else wdf in
        match wdf with
        | None =>
            (Crashed (TypeError "'NoneType' object is not subscriptable"),
             Session c (weather_history s) n)
        | Some wdf =>
            match iloc wdf 0 with
            | None =>
                (Crashed (IndexError "single positional indexer is out-of-bounds"),
                 Session c (weather_history s) n)
            | Some r =>
                let record := Sample (wtime r) (float_or_none (temperature r))
                                     (float_or_none (wind r)) in
                let h := weather_history s ++ [record] in
                let h := prune_weather (prune_clock i) h in
                let p := Page warn wdf (compute (map temp h))
                              (compute (map wnd h)) h in
                if auto_refresh (ui i)
                then (Rendered p (Some (refresh_sec (ui i))), Session (clear c) h n)
                else (Rendered p None, Session c h n)
            end
        end
    end.

Fixpoint runs (inputs : list run_input) (s : session)
  : list (run_end page) * session :=
  match inputs with
  | [] => ([], s)
  | i :: inputs' =>
      let (e, s') := run i s in
      let (es, s'') := runs inputs' s' in
      (e :: es, s'')
  end.

End WeatherLive.

(** ** Vocabulary of the properties *)

(** [h'] is [h] without a leading run of samples older than [cutoff],
    the run ending at the first sample that is not older. *)
Definition leading_prune {A} (ts : A → Z) (cutoff : Z) (h h' : list A) : Prop :=
  ∃ old, h = old ++ h'
         ∧ Forall (λ x, ts x < cutoff) old
         ∧ match h' with [] => True | x :: _ => cutoff ≤ ts x end.

(** Timestamps never go down along the deque. *)
Definition nondecreasing {A} (ts : A → Z) (h : list A) : Prop :=
  StronglySorted Z.le (ts <$> h).


(** The frame a run of the price page goes on with after the [if err:]
    branch. *)
Definition home_shown (df : option Home.frame) (err : option string)
  : option Home.frame :=
  if Py.truthy err then Some Home.SAMPLE_DF else df.

(** The page a run of the price page shows for the frame [d] and the
    pruned history [h]. *)
Definition home_page (err : option string)
    (d : Home.frame) (h : list Home.sample) : Home.page :=
  Home.Page (if Py.truthy err then Home.sample_notice <$> err else None) d
            (map (Home.metric_of h) Home.COINS) h.

(** The frame a run of the weather page goes on with after the
    [if werr:] branch. *)
Definition weather_shown (i : WeatherLive.run_input)
    (wdf : option WeatherLive.frame) (werr : option string)
  : option WeatherLive.frame :=
  if Py.truthy werr
  then Some [WeatherLive.WRow (WeatherLive.now i) nan nan]
  else wdf.

(** The record appended for the first row of the frame. *)
Definition weather_record (r : WeatherLive.wrow) : WeatherLive.sample :=
  WeatherLive.Sample (WeatherLive.wtime r)
    (WeatherLive.float_or_none (WeatherLive.temperature r))
    (WeatherLive.float_or_none (WeatherLive.wind r)).

(** The page a run of the weather page shows for the frame [d] and
    the pruned history [h]. *)
Definition weather_page (werr : option string) (d : WeatherLive.frame)
    (h : list WeatherLive.sample) : WeatherLive.page :=
  WeatherLive.Page (if Py.truthy werr then werr else None) d
    (WeatherLive.compute (map WeatherLive.temp h))
    (WeatherLive.compute (map WeatherLive.wnd h)) h.



(** The frame of an answer of the documented shape, [{"bitcoin":
    {"usd": 68000}, "ethereum": {"usd": 3500}}], given as the list of
    its coins and prices: one row per coin, with the one cell ["usd"]. *)
Definition quote_frame (quotes : list (string * float)) : Home.frame :=
  map (λ q, (fst q, [(Home.VS, snd q)])) quotes.

(** The records the append loop adds for these coins and prices in a
    run whose [now] is [now]. *)
Definition quote_samples (now : Z) (quotes : list (string * float))
  : list Home.sample :=
  map (λ q, Home.Sample now (fst q) (snd q)) quotes.

(** A run started by touching a widget other than the button, with
    auto-refresh off, while the entry stored at cache-clock reading [t0]
    is younger than the time to live, and with clocks for which no
    sample later than [lo] is older than the cutoff. *)
Definition home_quiet_run (t0 lo : Z) (i : Home.run_input) : Prop :=
  Streamlit.manual_refresh (Home.ui i) = false
  ∧ Streamlit.auto_refresh (Home.ui i) = false
  ∧ Home.cache_clock i - t0 < Home.TTL
  ∧ Home.prune_clock i - Py.timedelta_minutes Home.WINDOW_MINUTES ≤ lo
  ∧ lo ≤ Home.now i.

(** The same for the weather page, whose records carry the reported
    time [lo]. *)
Definition weather_quiet_run (t0 lo : Z) (i : WeatherLive.run_input) : Prop :=
  Streamlit.manual_refresh (WeatherLive.ui i) = false
  ∧ Streamlit.auto_refresh (WeatherLive.ui i) = false
  ∧ WeatherLive.cache_clock i - t0 < WeatherLive.TTL
  ∧ WeatherLive.prune_clock i - Py.timedelta_hours WeatherLive.WINDOW_HOURS ≤ lo.

(** * Properties *)

(** ** The cache *)

Section cache_facts.
Import Py Streamlit.
Context {K V W : Type} `{Countable K}.
Implicit Types (c : gmap K (cache_entry V)) (f : K → W → outcome V * W).

Lemma cached_fresh ttl c k t e :
  c !! k = Some e → t - fetched_at e < ttl → cached ttl c k t = Some (value e).
Proof.
  intros Hk Ht. unfold cached, fresh. rewrite Hk.
  by rewrite (proj2 (Z.ltb_lt _ _) Ht).
Qed.

Lemma cached_stale ttl c k t e :
  c !! k = Some e → ttl ≤ t - fetched_at e → cached ttl c k t = None.
Proof.
  intros Hk Ht. unfold cached, fresh. rewrite Hk.
  by rewrite (proj2 (Z.ltb_ge _ _) Ht).
Qed.

Lemma cached_empty ttl (k : K) t :
  cached ttl (∅ : gmap K (cache_entry V)) k t = None.
Proof. unfold cached. by rewrite lookup_empty. Qed.

Lemma cached_insert ttl c k t0 t v :
  t - t0 < ttl → cached ttl (<[k := CacheEntry v t0]> c) k t = Some v.
Proof.
  intros Ht.
  by rewrite (cached_fresh ttl _ k t (CacheEntry v t0));
    [|apply lookup_insert_eq|].
Qed.

Lemma call_hit ttl f c k t w v :
  cached ttl c k t = Some v → call ttl f k t c w = (Ret v, c, w).
Proof. intros Hc. unfold call. by rewrite Hc. Qed.

Lemma call_miss ttl f c k t w :
  cached ttl c k t = None → call ttl f k t c w = call_through f k t c w.
Proof. intros Hc. unfold call. by rewrite Hc. Qed.

End cache_facts.

(** ** The pruning loop *)

Section deque_facts.
Import Py.
Context {A : Type} (ts : A → Z).
Implicit Types (q h : list A) (cutoff : Z).

Lemma popleft_while_leading cutoff q :
  leading_prune ts cutoff q (popleft_while ts cutoff q).
Proof.
  induction q as [|x q IH]; simpl.
  - exists []. by repeat split.
  - destruct (Z.ltb_spec (ts x) cutoff) as [Hlt|Hge].
    + destruct IH as (old & Hq & Hold & Hhd).
      exists (x :: old). split; [by rewrite Hq at 1|]. split; [|done].
      by constructor.
    + exists []. by repeat split.
Qed.

Lemma popleft_while_recent_head cutoff x q :
  cutoff ≤ ts x → popleft_while ts cutoff (x :: q) = x :: q.
Proof.
  intros Hx. simpl. by rewrite (proj2 (Z.ltb_ge _ _) Hx).
Qed.

Lemma popleft_while_idemp cutoff q :
  popleft_while ts cutoff (popleft_while ts cutoff q) = popleft_while ts cutoff q.
Proof.
  destruct (popleft_while_leading cutoff q) as (old & _ & _ & Hhd).
  destruct (popleft_while ts cutoff q) as [|x q']; [done|].
  by apply popleft_while_recent_head.
Qed.

Lemma popleft_while_suffix cutoff q : popleft_while ts cutoff q `suffix_of` q.
Proof.
  destruct (popleft_while_leading cutoff q) as (old & Hq & _).
  by exists old.
Qed.

Lemma popleft_while_keeps cutoff q x :
  x ∈ q → cutoff ≤ ts x → x ∈ popleft_while ts cutoff q.
Proof.
  intros Hin Hx.
  destruct (popleft_while_leading cutoff q) as (old & Hq & Hold & _).
  rewrite Hq in Hin. apply elem_of_app in Hin as [Hin|Hin]; [|done].
  rewrite Forall_forall in Hold. specialize (Hold x Hin). lia.
Qed.

(** Appending samples of which the first is not older than the cutoff
    does not change what the loop removes. *)
Lemma popleft_while_app cutoff q new :
  match new with [] => True | x :: _ => cutoff ≤ ts x end →
  popleft_while ts cutoff (q ++ new) = popleft_while ts cutoff q ++ new.
Proof.
  intros Hnew. induction q as [|y q IH]; simpl.
  - destruct new as [|x new]; [done|]. by apply popleft_while_recent_head.
  - by destruct (ts y <? cutoff).
Qed.

Lemma filter_all_recent cutoff q :
  Forall (λ x, cutoff ≤ ts x) q → filter (λ x, cutoff ≤ ts x) q = q.
Proof.
  induction 1 as [|x q Hx _ IH]; [done|].
  rewrite filter_cons_True by done. by rewrite IH.
Qed.

(** On a deque in time order the loop removes exactly the old samples. *)
Lemma popleft_while_sorted cutoff q :
  nondecreasing ts q →
  popleft_while ts cutoff q = filter (λ x, cutoff ≤ ts x) q.
Proof.
  unfold nondecreasing. induction q as [|x q IH]; simpl; [done|].
  intros Hs. apply StronglySorted_inv in Hs as [Hs Hx].
  destruct (Z.ltb_spec (ts x) cutoff) as [Hlt|Hge].
  - rewrite filter_cons_False by lia. by apply IH.
  - rewrite filter_cons_True by done. f_equal.
    symmetry. apply filter_all_recent.
    rewrite Forall_fmap in Hx. eapply Forall_impl; [exact Hx|].
    simpl. intros; lia.
Qed.

End deque_facts.

(** ** Requests sent by a call and by a run *)

Section request_counts.
Import Py Streamlit.

Lemma call_through_world {K V W} `{Countable K}
    (f : K → W → outcome V * W) k t (c : gmap K (cache_entry V)) w :
  snd (call_through f k t c w) = snd (f k w).
Proof. unfold call_through. by destruct (f k w) as [[v|e] w']. Qed.

(** A miss of [fetch_prices] sends exactly one request. *)
Lemma fetch_prices_miss_sent net url t c n :
  cached Home.TTL c url t = None →
  snd (Home.fetch_prices net url t c n) = S n.
Proof.
  intros Hc. unfold Home.fetch_prices. rewrite call_miss by done.
  by rewrite call_through_world.
Qed.

Lemma get_weather_miss_sent net t c n :
  cached WeatherLive.TTL c () t = None →
  snd (WeatherLive.get_weather net t c n) = S n.
Proof.
  intros Hc. unfold WeatherLive.get_weather. rewrite call_miss by done.
  by rewrite call_through_world.
Qed.

(** A run that is not cut short by the button leaves the request
    counter where its call of [fetch_prices] left it. *)
Lemma home_run_sent i s :
  manual_refresh (Home.ui i) = false →
  Home.sent (snd (Home.run i s)) =
    snd (Home.fetch_prices (Home.net i) Home.API_URL (Home.cache_clock i)
           (Home.cache s) (Home.sent s)).
Proof.
  intros Hb. unfold Home.run. rewrite Hb.
  destruct (Home.fetch_prices _ _ _ _ _) as [[[[df err]|e] c] n]; simpl; [|done].
  destruct (truthy err), df as [df|]; simpl; try done;
    try match goal with
    | |- context [Home.append_rows ?d ?t ?r ?h] =>
        destruct (Home.append_rows d t r h) as [[[]|e] h']
    end; simpl; try done; by destruct (auto_refresh _).
Qed.

Lemma weather_run_sent i s :
  manual_refresh (WeatherLive.ui i) = false →
  WeatherLive.sent (snd (WeatherLive.run i s)) =
    snd (WeatherLive.get_weather (WeatherLive.net i) (WeatherLive.cache_clock i)
           (WeatherLive.cache s) (WeatherLive.sent s)).
Proof.
  intros Hb. unfold WeatherLive.run. rewrite Hb.
  destruct (WeatherLive.get_weather _ _ _ _) as [[[[df err]|e] c] n]; simpl; [|done].
  destruct (truthy err); simpl.
  - by destruct (auto_refresh _).
  - destruct df as [df|]; simpl; [|done].
    destruct (iloc df 0); simpl; [|done]. by destruct (auto_refresh _).
Qed.

End request_counts.

(** ** The claims about the cache *)

(** C1.  For every time to live [ttl] and every elapsed time [e < ttl]:
    when a first call of the cached function misses and its Fetcher
    returns [v], a second call with the same key [e] later returns the
    stored [v] without running the Fetcher; the store and the world (and
    so the count of requests sent) are left exactly as they were. *)
Theorem cached_fetch_hits_within_ttl {K V W : Type} `{Countable K}
    (ttl : Z) (f : K → W → Py.outcome V * W) (k : K) (t0 e : Z)
    (c : gmap K (Streamlit.cache_entry V)) (w w1 : W) (v : V) :
  Streamlit.cached ttl c k t0 = None →
  f k w = (Py.Ret v, w1) →
  e < ttl →
  let '(r0, c0, w0) := Streamlit.call ttl f k t0 c w in
  r0 = Py.Ret v ∧ w0 = w1 ∧
  Streamlit.call ttl f k (t0 + e) c0 w0 = (Py.Ret v, c0, w0).
Proof.
  intros Hmiss Hf He.
  rewrite call_miss by done. unfold Streamlit.call_through. rewrite Hf.
  repeat split. apply call_hit, cached_insert. lia.
Qed.

(** The price page, 299 seconds after a first fetch that answered 200:
    the same frame comes back and the request counter stays at one. *)
Lemma cached_fetch_hits_within_ttl_witness :
  let net := λ _ : string,
    Py.Response 200 None ""
      (Home.Json (Home.JNested [("bitcoin", [("usd", 70000%float)]);
                                ("ethereum", [("usd", 4000%float)])])) in
  let df := [("bitcoin", [("usd", 70000%float)]);
             ("ethereum", [("usd", 4000%float)])] in
  let '(r0, c0, n0) := Home.fetch_prices net Home.API_URL 0 ∅ 0%nat in
  r0 = Py.Ret (Some df, None) ∧ n0 = 1%nat ∧
  Home.fetch_prices net Home.API_URL (0 + Py.timedelta_seconds 299) c0 n0
  = (Py.Ret (Some df, None), c0, n0).
Proof.
  apply (cached_fetch_hits_within_ttl Home.TTL
           (Home.fetch_prices_body _) Home.API_URL 0 (Py.timedelta_seconds 299)
           ∅ 0%nat 1%nat).
  - apply cached_empty.
  - reflexivity.
  - reflexivity.
Defined.

(** C5.  Clearing the cache and then calling the cached function always
    runs the Fetcher, whatever the store held: one more request is sent.
    So it is for the manual refresh path of both pages: the run cut
    short by the button clears the store, and the run that follows sends
    one request. *)
Theorem get_after_clear_always_fetches :
  (∀ net url t c n,
     snd (Home.fetch_prices net url t (Streamlit.clear c) n) = S n)
  ∧ (∀ net t c n,
     snd (WeatherLive.get_weather net t (Streamlit.clear c) n) = S n)
  ∧ (∀ sec auto net tc now pc j s,
     let i := Home.RunInput (Streamlit.Widgets sec auto true) net tc now pc in
     Streamlit.manual_refresh (Home.ui j) = false →
     fst (Home.run i s) = Streamlit.ManualRerun
     ∧ Home.sent (snd (Home.run i s)) = Home.sent s
     ∧ Home.sent (snd (Home.run j (snd (Home.run i s)))) = S (Home.sent s))
  ∧ (∀ sec auto net tc now pc j s,
     let i := WeatherLive.RunInput (Streamlit.Widgets sec auto true) net tc now pc in
     Streamlit.manual_refresh (WeatherLive.ui j) = false →
     fst (WeatherLive.run i s) = Streamlit.ManualRerun
     ∧ WeatherLive.sent (snd (WeatherLive.run i s)) = WeatherLive.sent s
     ∧ WeatherLive.sent (snd (WeatherLive.run j (snd (WeatherLive.run i s))))
       = S (WeatherLive.sent s)).
Proof.
  split; [|split; [|split]].
  - intros. apply fetch_prices_miss_sent, cached_empty.
  - intros. apply get_weather_miss_sent, cached_empty.
  - intros sec auto net tc now pc j s i Hj. repeat split.
    rewrite home_run_sent by done. simpl.
    apply fetch_prices_miss_sent, cached_empty.
  - intros sec auto net tc now pc j s i Hj. repeat split.
    rewrite weather_run_sent by done. simpl.
    apply get_weather_miss_sent, cached_empty.
Qed.

(** The manual refresh of the price page on a store that holds a fresh
    entry: the next run still sends a request. *)
Lemma get_after_clear_always_fetches_witness :
  let net := λ _ : string, Py.ConnectionFailed "timed out" in
  let s := snd (Home.run (Home.RunInput (Streamlit.Widgets 30 false false)
                            net 0 0 0) Home.init) in
  let i := Home.RunInput (Streamlit.Widgets 30 false true) net 1 1 1 in
  let j := Home.RunInput (Streamlit.Widgets 30 false false) net 2 2 2 in
  Streamlit.cached Home.TTL (Home.cache s) Home.API_URL 2
    = Some (None, Some "Network/HTTP error: timed out")
  ∧ Home.sent s = 1%nat
  ∧ Home.sent (snd (Home.run j (snd (Home.run i s)))) = 2%nat.
Proof.
  split; [reflexivity|]. split; [reflexivity|].
  apply (proj1 (proj2 (proj2 get_after_clear_always_fetches))
           30 false (λ _ : string, Py.ConnectionFailed "timed out") 1 1 1
           (Home.RunInput (Streamlit.Widgets 30 false false)
              (λ _ : string, Py.ConnectionFailed "timed out") 2 2 2)).
  reflexivity.
Defined.

(** ** The claims about pruning *)

(** C2, as stated, fails: the loop stops at the first sample that is not
    older than the cutoff, so an older sample behind it stays.  On the
    weather page such a deque arises in two runs: the fetch fails at
    00:07 and the fallback record is stamped 00:07; the next fetch
    succeeds and its record carries the reported time 00:00.  Pruning at
    06:05 (cutoff 00:05) then removes nothing, although the second
    record is older than the cutoff. *)
Lemma prune_keeps_old_sample_behind_recent_one :
  let failed :=
    WeatherLive.RunInput (Streamlit.Widgets 30 true false)
      (Py.ConnectionFailed "timed out")
      0 (Py.timedelta_minutes 7) (Py.timedelta_minutes 7) in
  let answered :=
    WeatherLive.RunInput (Streamlit.Widgets 30 false false)
      (Py.Response 200 None "" (WeatherLive.Json (Some
         (WeatherLive.Reading 0 20%float 3%float))))
      (Py.timedelta_seconds 30) (Py.timedelta_minutes 8) (Py.timedelta_minutes 8) in
  let h := WeatherLive.weather_history
             (snd (WeatherLive.runs [failed; answered] WeatherLive.init)) in
  let utcnow := Py.timedelta_hours 6 + Py.timedelta_minutes 5 in
  let cutoff := utcnow - Py.timedelta_hours WeatherLive.WINDOW_HOURS in
  h = [WeatherLive.Sample (Py.timedelta_minutes 7) None None;
       WeatherLive.Sample 0 (Some 20%float) (Some 3%float)]
  ∧ WeatherLive.prune_weather utcnow h = h
  ∧ filter (λ x, cutoff ≤ WeatherLive.ts x) h
    = [WeatherLive.Sample (Py.timedelta_minutes 7) None None]
  ∧ WeatherLive.prune_weather utcnow h
    ≠ filter (λ x, cutoff ≤ WeatherLive.ts x) h.
Proof. vm_compute. repeat split. discriminate. Qed.

(** C2, amended.  Pruning removes a leading run of samples older than
    [now - window], up to the first sample that is not older, and leaves
    the rest in their order; pruning again with the same [now] changes
    nothing; and on a deque whose timestamps never go down, what is
    removed is exactly the samples older than the cutoff. *)
Theorem prune_removes_leading_old_samples :
  (∀ utcnow h,
     let cutoff := utcnow - Py.timedelta_minutes Home.WINDOW_MINUTES in
     leading_prune Home.ts cutoff h (Home.prune_history utcnow h)
     ∧ Home.prune_history utcnow (Home.prune_history utcnow h)
       = Home.prune_history utcnow h
     ∧ (nondecreasing Home.ts h →
        Home.prune_history utcnow h = filter (λ x, cutoff ≤ Home.ts x) h))
  ∧ (∀ utcnow h,
     let cutoff := utcnow - Py.timedelta_hours WeatherLive.WINDOW_HOURS in
     leading_prune WeatherLive.ts cutoff h (WeatherLive.prune_weather utcnow h)
     ∧ WeatherLive.prune_weather utcnow (WeatherLive.prune_weather utcnow h)
       = WeatherLive.prune_weather utcnow h
     ∧ (nondecreasing WeatherLive.ts h →
        WeatherLive.prune_weather utcnow h
        = filter (λ x, cutoff ≤ WeatherLive.ts x) h)).
Proof.
  split; intros utcnow h cutoff.
  - split; [apply popleft_while_leading|].
    split; [apply popleft_while_idemp|apply popleft_while_sorted].
  - split; [apply popleft_while_leading|].
    split; [apply popleft_while_idemp|apply popleft_while_sorted].
Qed.

(** Samples at minutes 0, 10, 20 and 40 of the price page, pruned at
    minute 40 with the window of 30 minutes: the sample at minute 10,
    on the cutoff, stays. *)
Lemma prune_removes_leading_old_samples_witness :
  let at_minute m := Home.Sample (Py.timedelta_minutes m) "bitcoin" 68000%float in
  let h := [at_minute 0; at_minute 10; at_minute 20; at_minute 40] in
  nondecreasing Home.ts h
  ∧ Home.prune_history (Py.timedelta_minutes 40) h
    = [at_minute 10; at_minute 20; at_minute 40]
  ∧ Home.prune_history (Py.timedelta_minutes 40) h
    = filter (λ x, Py.timedelta_minutes 40 - Py.timedelta_minutes 30 ≤ Home.ts x) h.
Proof.
  assert (Hs : nondecreasing Home.ts
                 [Home.Sample (Py.timedelta_minutes 0) "bitcoin" 68000%float;
                  Home.Sample (Py.timedelta_minutes 10) "bitcoin" 68000%float;
                  Home.Sample (Py.timedelta_minutes 20) "bitcoin" 68000%float;
                  Home.Sample (Py.timedelta_minutes 40) "bitcoin" 68000%float]).
  { unfold nondecreasing. vm_compute.
    repeat (constructor; [|repeat constructor; discriminate]). constructor. }
  split; [exact Hs|]. split; [reflexivity|].
  exact (proj2 (proj2 (proj1 prune_removes_leading_old_samples
                         (Py.timedelta_minutes 40) _)) Hs).
Defined.

(** ** Indexing from the end *)

Section iloc_facts.
Import Py.
Context {A : Type}.
Implicit Types (l : list A).

Lemma len_app l1 l2 : len (l1 ++ l2) = len l1 + len l2.
Proof. unfold len. rewrite length_app. lia. Qed.

Lemma iloc_last l x : iloc (l ++ [x]) (-1) = Some x.
Proof.
  unfold iloc. simpl (_ <? _). cbv iota.
  rewrite length_app. simpl length.
  destruct (Z.leb_spec (- -1) (Z.of_nat (length l + 1))) as [_|Hlt]; [|lia].
  replace (Z.to_nat (Z.of_nat (length l + 1) + -1)) with (length l + 0)%nat by lia.
  by rewrite lookup_app_r, Nat.add_comm, Nat.add_sub by lia.
Qed.

Lemma iloc_last_but_one l x y : iloc (l ++ [x; y]) (-2) = Some x.
Proof.
  unfold iloc. simpl (_ <? _). cbv iota.
  rewrite length_app. simpl length.
  destruct (Z.leb_spec (- -2) (Z.of_nat (length l + 2))) as [_|Hlt]; [|lia].
  replace (Z.to_nat (Z.of_nat (length l + 2) + -2)) with (length l + 0)%nat by lia.
  by rewrite lookup_app_r, Nat.add_comm, Nat.add_sub by lia.
Qed.

Lemma len_nonneg l : 0 ≤ len l.
Proof. unfold len. lia. Qed.

End iloc_facts.

(** ** The claims about the metrics *)

Section compute_facts.
Import Py.

Lemma home_compute_snoc l x :
  Home.compute (l ++ [x]) =
    (Some (Home.price x),
     (λ p, Home.price x - p)%float <$> fst (Home.compute l)).
Proof.
  unfold Home.compute. rewrite len_app, iloc_last.
  change (len [x]) with 1.
  pose proof (len_nonneg l) as Hl.
  destruct (Z.ltb_spec 0 (len l + 1)) as [_|?]; [|lia]. simpl (_ <$> Some _).
  destruct (Z.ltb_spec 1 (len l + 1)) as [H1|H1];
    destruct (Z.ltb_spec 0 (len l)) as [H0|H0]; try lia.
  - destruct l as [|y l _] using rev_ind; [done|].
    rewrite <- (assoc_L (++)). simpl (_ ++ [x]).
    by rewrite iloc_last_but_one, iloc_last.
  - done.
Qed.

Lemma home_compute_two l a b :
  Home.compute (l ++ [a; b]) =
    (Some (Home.price b), Some (Home.price b - Home.price a)%float).
Proof.
  change (l ++ [a; b]) with (l ++ [a] ++ [b]). rewrite (assoc_L (++)).
  by rewrite !home_compute_snoc.
Qed.

Lemma weather_compute_two col p c :
  WeatherLive.compute (col ++ [p; c]) =
    (WeatherLive.present c,
     match WeatherLive.present p, WeatherLive.present c with
     | Some x, Some y => Some (y - x)%float
     | _, _ => None
     end).
Proof.
  unfold WeatherLive.compute. rewrite len_app.
  change (len [p; c]) with 2.
  pose proof (len_nonneg col) as Hl.
  destruct (Z.ltb_spec 0 (len col + 2)) as [_|?]; [|lia].
  destruct (Z.ltb_spec 1 (len col + 2)) as [_|?]; [|lia].
  rewrite iloc_last_but_one.
  change (col ++ [p; c]) with (col ++ [p] ++ [c]). rewrite (assoc_L (++)).
  rewrite iloc_last. simpl mjoin. unfold WeatherLive.present.
  destruct p as [x|], c as [y|]; simpl; try done;
    destruct (isna x); simpl; try done; by destruct (isna y).
Qed.

End compute_facts.

(** C3, as stated, fails on the price page for a sample whose price is
    missing.  The second answer below lacks the price of ethereum; the
    frame holds NaN for it, the history records NaN, and the metric of
    ethereum gets NaN as its value and as its delta: neither is absent. *)
Lemma price_metric_propagates_nan :
  let answer body := λ _ : string, Py.Response 200 None "" (Home.Json body) in
  let first :=
    Home.RunInput (Streamlit.Widgets 30 true false)
      (answer (Home.JNested [("bitcoin", [("usd", 70000%float)]);
                             ("ethereum", [("usd", 4000%float)])]))
      0 0 0 in
  let second :=
    Home.RunInput (Streamlit.Widgets 30 true false)
      (answer (Home.JNested [("bitcoin", [("usd", 70000%float)]);
                             ("ethereum", [])]))
      (Py.timedelta_seconds 30) (Py.timedelta_seconds 30)
      (Py.timedelta_seconds 30) in
  let ends := fst (Home.runs [first; second] Home.init) in
  Home.metrics <$> (ends !! 1%nat ≫= Streamlit.rendered)
  = Some [Home.Metric "bitcoin" (Some 70000%float) (Some 0%float);
          Home.Metric "ethereum" (Some nan) (Some nan)]
  ∧ Home.compute [Home.Sample 0 "ethereum" 4000%float;
                  Home.Sample 1 "ethereum" nan]
    = (Some nan, Some nan)
  ∧ Py.isna nan = true.
Proof. vm_compute. done. Qed.

(** C3, amended.  On an empty view both pages compute no value and no
    delta; on a view of one sample, the value of that sample and no
    delta; on a view of two or more samples, the delta is the last value
    minus the one before it, as the float subtraction gives it.  On the
    weather page a missing measurement ([None] or NaN) in the last
    sample makes the value absent, and one in either of the last two
    samples makes the delta absent.  On the price page a price is a
    float and is used as it is: a NaN price is the value, and the delta
    is the (NaN) result of the subtraction. *)
Theorem compute_current_and_delta :
  (Home.compute [] = (None, None)
   ∧ (∀ s, Home.compute [s] = (Some (Home.price s), None))
   ∧ (∀ l a b,
        Home.compute (l ++ [a; b])
        = (Some (Home.price b), Some (Home.price b - Home.price a)%float)))
  ∧ (WeatherLive.compute [] = (None, None)
   ∧ (∀ c, WeatherLive.compute [c] = (WeatherLive.present c, None))
   ∧ (∀ l p c,
        WeatherLive.compute (l ++ [p; c])
        = (WeatherLive.present c,
           match WeatherLive.present p, WeatherLive.present c with
           | Some x, Some y => Some (y - x)%float
           | _, _ => None
           end))).
Proof.
  split; (split; [done|]); split.
  - done.
  - apply home_compute_two.
  - intros [x|]; [|done]. unfold WeatherLive.compute, WeatherLive.present.
    simpl. by destruct (Py.isna x).
  - apply weather_compute_two.
Qed.

(** ** The claim that the fetch never raises *)

(** C4 fails on the code.  An answer with status 200 whose JSON is not
    of the expected shape makes the fetch function raise: pandas refuses
    the error report [{"error": "coin not found"}] with a [ValueError]
    in [fetch_prices], and the lookup of ["current"] raises a [KeyError]
    in [get_weather].  Neither is a [RequestException], so neither is
    caught; the run ends with the exception, and nothing was cached. *)
Theorem fetch_raises_on_unexpected_json :
  let prices := λ _ : string,
    Py.Response 200 None ""
      (Home.Json (Home.JFlat [("error", Home.JStr "coin not found")])) in
  let weather := Py.Response 200 None "" (WeatherLive.Json None) in
  Home.fetch_prices prices Home.API_URL 0 ∅ 0%nat
  = (Py.Raise (Py.ValueError "If using all scalar values, you must pass an index"),
     ∅, 1%nat)
  ∧ WeatherLive.get_weather weather 0 ∅ 0%nat
    = (Py.Raise (Py.KeyError "current"), ∅, 1%nat)
  ∧ fst (Home.run (Home.RunInput (Streamlit.Widgets 30 false false) prices 0 0 0)
           Home.init)
    = Streamlit.Crashed
        (Py.ValueError "If using all scalar values, you must pass an index")
  ∧ fst (WeatherLive.run
           (WeatherLive.RunInput (Streamlit.Widgets 30 false false) weather 0 0 0)
           WeatherLive.init)
    = Streamlit.Crashed (Py.KeyError "current").
Proof. vm_compute. done. Qed.

(** ** What a run of the price page does *)

Section home_run_facts.
Import Py Streamlit.

Lemma append_rows_complete df now todo h :
  Home.has_column df Home.VS = true →
  Home.append_rows df now todo h = (Ret (), h ++ Home.samples_of now todo).
Proof.
  intros Hcol. revert h. induction todo as [|r todo IH]; intros h; simpl.
  - by rewrite app_nil_r.
  - unfold Home.cell. rewrite Hcol, IH. by rewrite <- (assoc_L (++)).
Qed.

Lemma append_rows_no_column df now todo h :
  Home.has_column df Home.VS = false →
  Home.append_rows df now todo h =
    (match todo with [] => Ret () | _ :: _ => Raise (KeyError Home.VS) end, h).
Proof.
  intros Hcol. destruct todo as [|r todo]; simpl; [done|].
  unfold Home.cell. by rewrite Hcol.
Qed.

(** A run whose fetch returns and whose frame has the price column shows
    a page: the frame's rows are appended with the run's [now], the
    deque is pruned with the clock read inside [prune_history], and the
    run ends as the toggle says. *)
Lemma home_run_renders i s df err c n d :
  manual_refresh (Home.ui i) = false →
  Home.fetch_prices (Home.net i) Home.API_URL (Home.cache_clock i)
    (Home.cache s) (Home.sent s) = (Ret (df, err), c, n) →
  home_shown df err = Some d →
  d = [] ∨ Home.has_column d Home.VS = true →
  let h := Home.prune_history (Home.prune_clock i)
             (Home.price_history s ++ Home.samples_of (Home.now i) d) in
  Home.run i s =
    (Rendered (home_page err d h)
       (if auto_refresh (Home.ui i) then Some (refresh_sec (Home.ui i)) else None),
     Home.Session (if auto_refresh (Home.ui i) then ∅ else c) h n).
Proof.
  intros Hb Hf Hd Hcol h. unfold Home.run. rewrite Hb, Hf.
  unfold home_shown in Hd. cbv zeta. rewrite Hd.
  assert (Home.append_rows d (Home.now i) d (Home.price_history s)
          = (Ret (), Home.price_history s ++ Home.samples_of (Home.now i) d))
    as ->.
  { destruct Hcol as [->|Hcol]; [by rewrite app_nil_r|].
    by apply append_rows_complete. }
  fold h. unfold home_page. by destruct (auto_refresh _).
Qed.

(** The history after any run: unchanged, or the old history and the
    records of a frame stamped with the run's [now], pruned. *)
Lemma home_run_history i s :
  Home.price_history (snd (Home.run i s)) = Home.price_history s
  ∨ ∃ df err c n d,
      Home.fetch_prices (Home.net i) Home.API_URL (Home.cache_clock i)
        (Home.cache s) (Home.sent s) = (Ret (df, err), c, n)
      ∧ home_shown df err = Some d
      ∧ Home.price_history (snd (Home.run i s)) =
          Home.prune_history (Home.prune_clock i)
            (Home.price_history s ++ Home.samples_of (Home.now i) d).
Proof.
  destruct (manual_refresh (Home.ui i)) eqn:Hb.
  { left. unfold Home.run. by rewrite Hb. }
  destruct (Home.fetch_prices (Home.net i) Home.API_URL (Home.cache_clock i)
              (Home.cache s) (Home.sent s)) as [[[[df err]|e] c] n] eqn:Hf.
  2:{ left. unfold Home.run. by rewrite Hb, Hf. }
  destruct (home_shown df err) as [d|] eqn:Hd.
  2:{ left. unfold Home.run. rewrite Hb, Hf. unfold home_shown in Hd.
      cbv zeta. by rewrite Hd. }
  destruct (Home.has_column d Home.VS) eqn:Hcol.
  - right. exists df, err, c, n, d. repeat split; [done|].
    by rewrite (home_run_renders i s df err c n d); [| | | |right].
  - destruct d as [|r d].
    + right. exists df, err, c, n, []. repeat split; [done|].
      by rewrite (home_run_renders i s df err c n []); [| | | |left].
    + left. unfold Home.run. rewrite Hb, Hf. unfold home_shown in Hd.
      cbv zeta. rewrite Hd. by rewrite append_rows_no_column.
Qed.

End home_run_facts.

(** ** What a run of the weather page does *)

Section weather_run_facts.
Import Py Streamlit.

Lemma weather_run_renders i s wdf werr c n r d :
  manual_refresh (WeatherLive.ui i) = false →
  WeatherLive.get_weather (WeatherLive.net i) (WeatherLive.cache_clock i)
    (WeatherLive.cache s) (WeatherLive.sent s) = (Ret (wdf, werr), c, n) →
  weather_shown i wdf werr = Some (r :: d) →
  let h := WeatherLive.prune_weather (WeatherLive.prune_clock i)
             (WeatherLive.weather_history s ++ [weather_record r]) in
  WeatherLive.run i s =
    (Rendered (weather_page werr (r :: d) h)
       (if auto_refresh (WeatherLive.ui i)
        then Some (refresh_sec (WeatherLive.ui i)) else None),
     WeatherLive.Session (if auto_refresh (WeatherLive.ui i) then ∅ else c) h n).
Proof.
  intros Hb Hf Hd h. unfold WeatherLive.run. rewrite Hb, Hf.
  unfold weather_shown in Hd. subst h. cbv zeta. unfold weather_page.
  destruct (truthy werr); simplify_eq; by destruct (auto_refresh _).
Qed.

Lemma weather_run_history i s :
  WeatherLive.weather_history (snd (WeatherLive.run i s))
    = WeatherLive.weather_history s
  ∨ ∃ wdf werr c n r d,
      WeatherLive.get_weather (WeatherLive.net i) (WeatherLive.cache_clock i)
        (WeatherLive.cache s) (WeatherLive.sent s) = (Ret (wdf, werr), c, n)
      ∧ weather_shown i wdf werr = Some (r :: d)
      ∧ WeatherLive.weather_history (snd (WeatherLive.run i s)) =
          WeatherLive.prune_weather (WeatherLive.prune_clock i)
            (WeatherLive.weather_history s ++ [weather_record r]).
Proof.
  destruct (manual_refresh (WeatherLive.ui i)) eqn:Hb.
  { left. unfold WeatherLive.run. by rewrite Hb. }
  destruct (WeatherLive.get_weather (WeatherLive.net i) (WeatherLive.cache_clock i)
              (WeatherLive.cache s) (WeatherLive.sent s))
    as [[[[wdf werr]|e] c] n] eqn:Hf.
  2:{ left. unfold WeatherLive.run. by rewrite Hb, Hf. }
  destruct (weather_shown i wdf werr) as [[|r d]|] eqn:Hd.
  - left. unfold WeatherLive.run. rewrite Hb, Hf. unfold weather_shown in Hd.
    cbv zeta. by destruct (truthy werr); simplify_eq.
  - right. exists wdf, werr, c, n, r, d. repeat split; [done|].
    by rewrite (weather_run_renders i s wdf werr c n r d).
  - left. unfold WeatherLive.run. rewrite Hb, Hf. unfold weather_shown in Hd.
    cbv zeta. by destruct (truthy werr); simplify_eq.
Qed.

End weather_run_facts.

(** ** The claims about a cycle whose fetch fails *)

(** C6, as stated, fails: a run whose fetch fails shows the fixed sample
    frame, not the last good snapshot, and keeps nothing of an earlier
    good answer once its samples are older than the window.  Here the
    first run gets bitcoin at 70000 and ethereum at 4000; the second, 31
    minutes later, gets a timeout.  Its page shows the warning and the
    sample prices only; the history and the cache hold nothing of the
    first answer. *)
Lemma failed_run_shows_sample_not_last_good :
  let good :=
    Home.RunInput (Streamlit.Widgets 30 false false)
      (λ _, Py.Response 200 None ""
         (Home.Json (Home.JNested [("bitcoin", [("usd", 70000%float)]);
                                   ("ethereum", [("usd", 4000%float)])])))
      0 0 0 in
  let late := Py.timedelta_minutes 31 in
  let failed :=
    Home.RunInput (Streamlit.Widgets 30 false false)
      (λ _, Py.ConnectionFailed "timed out") late late late in
  let fallback := [Home.Sample late "bitcoin" 68000%float;
                   Home.Sample late "ethereum" 3500%float] in
  let '(ends, s) := Home.runs [good; failed] Home.init in
  ends !! 1%nat
  = Some (Streamlit.Rendered
            (Home.Page
               (Some (Home.sample_notice "Network/HTTP error: timed out"))
               Home.SAMPLE_DF
               [Home.Metric "bitcoin" (Some 68000%float) None;
                Home.Metric "ethereum" (Some 3500%float) None]
               fallback)
            None)
  ∧ Home.price_history s = fallback
  ∧ Home.cache s !! Home.API_URL
    = Some (Streamlit.CacheEntry
              (None, Some "Network/HTTP error: timed out") late).
Proof. vm_compute. done. Qed.

(** C6, amended.  When the fetch of a run returns an error message, the
    run shows a page (no exception): the warning carries the message,
    and the snapshot is the fallback, the fixed sample frame on the
    price page, one row stamped with the clock and holding NaN on the
    weather page.  The fallback is recorded in the history, which is
    then pruned; every earlier sample that is not older than the cutoff
    is still in the history the page charts.  The run ends as a
    successful one does: with auto-refresh on, the wait is
    [refresh_sec]. *)
Theorem failed_fetch_shows_warning_and_fallback :
  (∀ i s df msg c n,
     Streamlit.manual_refresh (Home.ui i) = false →
     Home.fetch_prices (Home.net i) Home.API_URL (Home.cache_clock i)
       (Home.cache s) (Home.sent s) = (Py.Ret (df, Some msg), c, n) →
     Py.truthy (Some msg) = true →
     ∃ p,
       fst (Home.run i s)
       = Streamlit.Rendered p
           (if Streamlit.auto_refresh (Home.ui i)
            then Some (Streamlit.refresh_sec (Home.ui i)) else None)
       ∧ Home.warning p = Some (Home.sample_notice msg)
       ∧ Home.table p = Home.SAMPLE_DF
       ∧ Home.chart p
         = Home.prune_history (Home.prune_clock i)
             (Home.price_history s ++ Home.samples_of (Home.now i) Home.SAMPLE_DF)
       ∧ Home.price_history (snd (Home.run i s)) = Home.chart p
       ∧ ∀ x, x ∈ Home.price_history s →
              Home.prune_clock i - Py.timedelta_minutes Home.WINDOW_MINUTES
                ≤ Home.ts x →
              x ∈ Home.chart p)
  ∧ (∀ i s wdf msg c n,
     Streamlit.manual_refresh (WeatherLive.ui i) = false →
     WeatherLive.get_weather (WeatherLive.net i) (WeatherLive.cache_clock i)
       (WeatherLive.cache s) (WeatherLive.sent s) = (Py.Ret (wdf, Some msg), c, n) →
     Py.truthy (Some msg) = true →
     ∃ p,
       fst (WeatherLive.run i s)
       = Streamlit.Rendered p
           (if Streamlit.auto_refresh (WeatherLive.ui i)
            then Some (Streamlit.refresh_sec (WeatherLive.ui i)) else None)
       ∧ WeatherLive.warning p = Some msg
       ∧ WeatherLive.table p = [WeatherLive.WRow (WeatherLive.now i) nan nan]
       ∧ WeatherLive.chart p
         = WeatherLive.prune_weather (WeatherLive.prune_clock i)
             (WeatherLive.weather_history s
              ++ [WeatherLive.Sample (WeatherLive.now i) None None])
       ∧ WeatherLive.weather_history (snd (WeatherLive.run i s))
         = WeatherLive.chart p
       ∧ ∀ x, x ∈ WeatherLive.weather_history s →
              WeatherLive.prune_clock i - Py.timedelta_hours WeatherLive.WINDOW_HOURS
                ≤ WeatherLive.ts x →
              x ∈ WeatherLive.chart p).
Proof.
  split.
  - intros i s df msg c n Hb Hf Ht.
    rewrite (home_run_renders i s df (Some msg) c n Home.SAMPLE_DF);
      [|done|done|by unfold home_shown; rewrite Ht|by right].
    eexists. split; [reflexivity|]. unfold home_page. rewrite Ht.
    split_and!; try done.
    intros x Hx Hrecent. apply popleft_while_keeps; [|done].
    apply elem_of_app. by left.
  - intros i s wdf msg c n Hb Hf Ht.
    rewrite (weather_run_renders i s wdf (Some msg) c n
               (WeatherLive.WRow (WeatherLive.now i) nan nan) []);
      [|done|done|by unfold weather_shown; rewrite Ht].
    eexists. split; [reflexivity|]. unfold weather_page. rewrite Ht.
    split_and!; try done.
    intros x Hx Hrecent. apply popleft_while_keeps; [|done].
    apply elem_of_app. by left.
Qed.

(** A sample 20 minutes old stays on the chart of the price page when
    the fetch then times out. *)
Lemma failed_fetch_shows_warning_and_fallback_witness :
  let earlier := Home.Sample 0 "bitcoin" 70000%float in
  let s := Home.Session ∅ [earlier] 1 in
  let at20 := Py.timedelta_minutes 20 in
  let i := Home.RunInput (Streamlit.Widgets 45 true false)
             (λ _, Py.ConnectionFailed "timed out") at20 at20 at20 in
  ∃ p,
    fst (Home.run i s) = Streamlit.Rendered p (Some 45)
    ∧ Home.warning p = Some (Home.sample_notice "Network/HTTP error: timed out")
    ∧ Home.table p = Home.SAMPLE_DF
    ∧ earlier ∈ Home.chart p.
Proof.
  intros earlier s at20 i.
  assert (∃ c n,
            Home.fetch_prices (Home.net i) Home.API_URL (Home.cache_clock i)
              (Home.cache s) (Home.sent s)
            = (Py.Ret (None, Some "Network/HTTP error: timed out"), c, n))
    as (c & n & Hf).
  { eexists _, _. vm_compute. reflexivity. }
  destruct (proj1 failed_fetch_shows_warning_and_fallback i s None
              "Network/HTTP error: timed out" c n eq_refl Hf eq_refl)
    as (p & Hend & Hwarn & Htable & _ & _ & Hkeeps).
  exists p. split; [exact Hend|]. split; [exact Hwarn|]. split; [exact Htable|].
  apply Hkeeps; [apply list_elem_of_here|]. vm_compute. discriminate.
Defined.

(** ** The claims about stopping auto-refresh *)

Section run_end_facts.
Import Py Streamlit.

(** A run that shows a page ends as the toggle read at its start says,
    and with the toggle on it leaves the cache cleared. *)
Lemma home_run_rendered_end i s p r :
  manual_refresh (Home.ui i) = false →
  fst (Home.run i s) = Rendered p r →
  r = (if auto_refresh (Home.ui i) then Some (refresh_sec (Home.ui i)) else None)
  ∧ (auto_refresh (Home.ui i) = true → Home.cache (snd (Home.run i s)) = ∅).
Proof.
  intros Hb. unfold Home.run. rewrite Hb.
  destruct (Home.fetch_prices _ _ _ _ _) as [[[[df err]|e] c] n]; simpl; [|done].
  destruct (truthy err), df as [df|]; simpl; try done;
    try match goal with
    | |- context [Home.append_rows ?d ?t ?r ?h] =>
        destruct (Home.append_rows d t r h) as [[[]|e] h']
    end; simpl; try done;
    destruct (auto_refresh _); simpl; intros; by simplify_eq.
Qed.

Lemma weather_run_rendered_end i s p r :
  manual_refresh (WeatherLive.ui i) = false →
  fst (WeatherLive.run i s) = Rendered p r →
  r = (if auto_refresh (WeatherLive.ui i)
       then Some (refresh_sec (WeatherLive.ui i)) else None)
  ∧ (auto_refresh (WeatherLive.ui i) = true →
     WeatherLive.cache (snd (WeatherLive.run i s)) = ∅).
Proof.
  intros Hb. unfold WeatherLive.run. rewrite Hb.
  destruct (WeatherLive.get_weather _ _ _ _) as [[[[df err]|e] c] n]; simpl; [|done].
  destruct (truthy err); simpl.
  - destruct (auto_refresh _); simpl; intros; by simplify_eq.
  - destruct df as [df|]; simpl; [|done].
    destruct (iloc df 0); simpl; [|done].
    destruct (auto_refresh _); simpl; intros; by simplify_eq.
Qed.

End run_end_facts.

(** C8, as stated, fails: the toggle is read when a run starts, and
    every run calls the cached fetch.  The first run below starts with
    auto-refresh on: it fetches, sleeps 30 seconds, clears the cache and
    reruns.  The toggle is switched off during the sleep; the run that
    follows reads it off and still fetches: a second request is sent
    after the stop.  The same happens on the weather page. *)
Lemma fetch_follows_stopped_auto_refresh :
  let prices := λ _ : string,
    Py.Response 200 None ""
      (Home.Json (Home.JNested [("bitcoin", [("usd", 70000%float)]);
                                ("ethereum", [("usd", 4000%float)])])) in
  let weather :=
    Py.Response 200 None ""
      (WeatherLive.Json (Some (WeatherLive.Reading 0 20%float 3%float))) in
  let later := Py.timedelta_seconds 30 in
  let on := Streamlit.Widgets 30 true false in
  let off := Streamlit.Widgets 30 false false in
  let '(ends, s) :=
    Home.runs [Home.RunInput on prices 0 0 0;
               Home.RunInput off prices later later later] Home.init in
  let '(wends, ws) :=
    WeatherLive.runs [WeatherLive.RunInput on weather 0 0 0;
                      WeatherLive.RunInput off weather later later later]
      WeatherLive.init in
  Streamlit.slept <$> ends = [Some 30; None]
  ∧ Home.sent s = 2%nat
  ∧ Streamlit.slept <$> wends = [Some 30; None]
  ∧ WeatherLive.sent ws = 2%nat.
Proof. vm_compute. done. Qed.

(** C8, amended.  Auto-refresh is read once, when a run starts.  A run
    that starts with it on and shows its page always sleeps
    [refresh_sec], clears the cache and reruns: nothing in the run
    looks at the toggle again.  The run that follows sends one more
    request whatever the toggle says by then; with the toggle off it
    does not sleep or rerun by itself. *)
Theorem auto_refresh_is_read_at_run_start :
  (∀ i j s p r,
     Streamlit.manual_refresh (Home.ui i) = false →
     Streamlit.auto_refresh (Home.ui i) = true →
     fst (Home.run i s) = Streamlit.Rendered p r →
     Streamlit.manual_refresh (Home.ui j) = false →
     let s' := snd (Home.run i s) in
     r = Some (Streamlit.refresh_sec (Home.ui i))
     ∧ Home.sent (snd (Home.run j s')) = S (Home.sent s')
     ∧ (Streamlit.auto_refresh (Home.ui j) = false →
        Streamlit.slept (fst (Home.run j s')) = None))
  ∧ (∀ i j s p r,
     Streamlit.manual_refresh (WeatherLive.ui i) = false →
     Streamlit.auto_refresh (WeatherLive.ui i) = true →
     fst (WeatherLive.run i s) = Streamlit.Rendered p r →
     Streamlit.manual_refresh (WeatherLive.ui j) = false →
     let s' := snd (WeatherLive.run i s) in
     r = Some (Streamlit.refresh_sec (WeatherLive.ui i))
     ∧ WeatherLive.sent (snd (WeatherLive.run j s')) = S (WeatherLive.sent s')
     ∧ (Streamlit.auto_refresh (WeatherLive.ui j) = false →
        Streamlit.slept (fst (WeatherLive.run j s')) = None)).
Proof.
  split.
  - intros i j s p r Hbi Hai Hend Hbj s'.
    destruct (home_run_rendered_end i s p r Hbi Hend) as [Hr Hc].
    rewrite Hai in Hr. split; [done|]. split.
    + rewrite home_run_sent by done. apply fetch_prices_miss_sent.
      subst s'. rewrite (Hc Hai). apply cached_empty.
    + intros Haj.
      destruct (fst (Home.run j s')) as [p' r'| |e] eqn:Hend'; [|done..].
      destruct (home_run_rendered_end j s' p' r' Hbj Hend') as [-> _].
      simpl. by rewrite Haj.
  - intros i j s p r Hbi Hai Hend Hbj s'.
    destruct (weather_run_rendered_end i s p r Hbi Hend) as [Hr Hc].
    rewrite Hai in Hr. split; [done|]. split.
    + rewrite weather_run_sent by done. apply get_weather_miss_sent.
      subst s'. rewrite (Hc Hai). apply cached_empty.
    + intros Haj.
      destruct (fst (WeatherLive.run j s')) as [p' r'| |e] eqn:Hend'; [|done..].
      destruct (weather_run_rendered_end j s' p' r' Hbj Hend') as [-> _].
      simpl. by rewrite Haj.
Qed.

(** The price page with the toggle on at 45 seconds, then off. *)
Lemma auto_refresh_is_read_at_run_start_witness :
  let prices := λ _ : string,
    Py.Response 200 None ""
      (Home.Json (Home.JNested [("bitcoin", [("usd", 70000%float)]);
                                ("ethereum", [("usd", 4000%float)])])) in
  let later := Py.timedelta_seconds 45 in
  let i := Home.RunInput (Streamlit.Widgets 45 true false) prices 0 0 0 in
  let j := Home.RunInput (Streamlit.Widgets 45 false false) prices later later later in
  let s' := snd (Home.run i Home.init) in
  Streamlit.slept (fst (Home.run i Home.init)) = Some 45
  ∧ Home.sent s' = 1%nat
  ∧ Home.sent (snd (Home.run j s')) = 2%nat
  ∧ Streamlit.slept (fst (Home.run j s')) = None.
Proof.
  intros prices later i j s'.
  assert (∃ p r, fst (Home.run i Home.init) = Streamlit.Rendered p r)
    as (p & r & Hend).
  { eexists _, _. vm_compute. reflexivity. }
  destruct (proj1 auto_refresh_is_read_at_run_start i j Home.init p r
              eq_refl eq_refl Hend eq_refl) as (Hr & Hsent & Hoff).
  split; [by rewrite Hend, Hr|]. split; [reflexivity|].
  split; [exact Hsent|]. exact (Hoff eq_refl).
Defined.

(** ** The series view of the price page *)

Section series_facts.
Import Py.
Implicit Types (l h : list Home.sample) (x y : Home.sample).

Lemma insert_by_ts_Forall (P : Home.sample → Prop) x l :
  P x → Forall P l → Forall P (Home.insert_by_ts x l).
Proof.
  intros Hx. induction 1 as [|y l Hy Hl IH]; simpl.
  - by constructor.
  - destruct (Home.ts y <=? Home.ts x); by repeat constructor.
Qed.

Lemma sort_values_snoc l x :
  Home.sort_values (l ++ [x]) = Home.insert_by_ts x (Home.sort_values l).
Proof. unfold Home.sort_values. by rewrite fold_left_app. Qed.

Lemma sort_values_Forall (P : Home.sample → Prop) l :
  Forall P l → Forall P (Home.sort_values l).
Proof.
  induction l as [|x l IH] using rev_ind; intros Hl; [constructor|].
  apply Forall_app in Hl as [Hl Hx]. rewrite sort_values_snoc.
  apply insert_by_ts_Forall; [by apply Forall_inv in Hx|by apply IH].
Qed.

(** A row later than all the others goes to the end. *)
Lemma insert_by_ts_latest x l :
  Forall (λ y, Home.ts y < Home.ts x) l → Home.insert_by_ts x l = l ++ [x].
Proof.
  induction 1 as [|y l Hy _ IH]; simpl; [done|].
  destruct (Z.leb_spec (Home.ts y) (Home.ts x)); [by rewrite IH|lia].
Qed.

Lemma series_view_snoc_other h x c :
  Home.coin x ≠ c → Home.series_view (h ++ [x]) c = Home.series_view h c.
Proof.
  intros Hc. unfold Home.series_view.
  by rewrite filter_app, filter_cons_False, filter_nil, app_nil_r.
Qed.

Lemma series_view_snoc_latest h x :
  Forall (λ y, Home.coin y = Home.coin x → Home.ts y < Home.ts x) h →
  Home.series_view (h ++ [x]) (Home.coin x) =
    Home.series_view h (Home.coin x) ++ [x].
Proof.
  intros Hh. unfold Home.series_view.
  rewrite filter_app, filter_cons_True, filter_nil by done.
  rewrite sort_values_snoc. apply insert_by_ts_latest, sort_values_Forall.
  induction Hh as [|y h Hy _ IH]; [constructor|].
  destruct (decide (Home.coin y = Home.coin x)) as [Heq|Hne].
  - rewrite filter_cons_True by done. constructor; auto.
  - by rewrite filter_cons_False.
Qed.

End series_facts.

(** ** The claim about the sample prices *)

(** C9.  On the price page, when the fetch of a run returns an error
    message, the run records the sample prices, bitcoin at 68000 and
    ethereum at 3500, stamped with its [now], as it records any other
    prices; the cycle is not skipped and no absent value is recorded.
    When the clock readings are in order (every earlier sample is
    earlier than [now], and [now] is not older than the cutoff), the
    metrics the run shows are computed from these constants: each value
    is the sample price, each delta the sample price minus the value the
    earlier history gave. *)
Theorem failed_fetch_records_sample_prices i s df msg c n :
  Streamlit.manual_refresh (Home.ui i) = false →
  Home.fetch_prices (Home.net i) Home.API_URL (Home.cache_clock i)
    (Home.cache s) (Home.sent s) = (Py.Ret (df, Some msg), c, n) →
  Py.truthy (Some msg) = true →
  let fallback := [Home.Sample (Home.now i) "bitcoin" 68000%float;
                   Home.Sample (Home.now i) "ethereum" 3500%float] in
  let earlier := Home.prune_history (Home.prune_clock i) (Home.price_history s) in
  let before coin := fst (Home.compute (Home.series_view earlier coin)) in
  Home.price_history (snd (Home.run i s))
  = Home.prune_history (Home.prune_clock i) (Home.price_history s ++ fallback)
  ∧ ((∀ x, x ∈ Home.price_history s → Home.ts x < Home.now i) →
     Home.prune_clock i - Py.timedelta_minutes Home.WINDOW_MINUTES ≤ Home.now i →
     Home.price_history (snd (Home.run i s)) = earlier ++ fallback
     ∧ Home.metrics <$> Streamlit.rendered (fst (Home.run i s))
       = Some [Home.Metric "bitcoin" (Some 68000%float)
                 ((λ p, 68000 - p)%float <$> before "bitcoin");
               Home.Metric "ethereum" (Some 3500%float)
                 ((λ p, 3500 - p)%float <$> before "ethereum")]).
Proof.
  intros Hb Hf Ht fallback earlier before.
  rewrite (home_run_renders i s df (Some msg) c n Home.SAMPLE_DF);
    [|done|done|by unfold home_shown; rewrite Ht|by right].
  change (Home.samples_of (Home.now i) Home.SAMPLE_DF) with fallback.
  split; [done|]. intros Hlt Hcut.
  assert (Home.prune_history (Home.prune_clock i)
            (Home.price_history s ++ fallback) = earlier ++ fallback) as ->.
  { unfold Home.prune_history. by rewrite popleft_while_app. }
  split; [done|]. simpl. f_equal.
  assert (Hearlier : Forall (λ y, Home.ts y < Home.now i) earlier).
  { apply Forall_forall. intros x Hx. apply Hlt.
    eapply elem_of_suffix; [exact Hx|]. apply popleft_while_suffix. }
  unfold Home.metric_of, fallback.
  set (b := Home.Sample (Home.now i) "bitcoin" 68000%float).
  set (e := Home.Sample (Home.now i) "ethereum" 3500%float).
  change (earlier ++ [b; e]) with (earlier ++ [b] ++ [e]).
  rewrite (assoc_L (++)).
  f_equal; [|f_equal].
  - rewrite (series_view_snoc_other _ e "bitcoin") by done.
    pose proof (series_view_snoc_latest earlier b) as Hview.
    change (Home.coin b) with "bitcoin" in Hview. rewrite Hview.
    + by rewrite home_compute_snoc.
    + eapply Forall_impl; [exact Hearlier|]. by intros.
  - pose proof (series_view_snoc_latest (earlier ++ [b]) e) as Hview.
    change (Home.coin e) with "ethereum" in Hview. rewrite Hview.
    + rewrite (series_view_snoc_other _ b "ethereum") by done.
      by rewrite home_compute_snoc.
    + apply Forall_app. split.
      * eapply Forall_impl; [exact Hearlier|]. by intros.
      * by repeat constructor.
Qed.

(** A session that recorded bitcoin at 70000 and ethereum at 4000, and a
    timeout a minute later: the deltas are 68000 - 70000 and 3500 -
    4000. *)
Lemma failed_fetch_records_sample_prices_witness :
  let s := Home.Session ∅ [Home.Sample 0 "bitcoin" 70000%float;
                           Home.Sample 0 "ethereum" 4000%float] 1 in
  let t := Py.timedelta_minutes 1 in
  let i := Home.RunInput (Streamlit.Widgets 30 false false)
             (λ _, Py.ConnectionFailed "timed out") t t t in
  Home.price_history (snd (Home.run i s))
  = [Home.Sample 0 "bitcoin" 70000%float; Home.Sample 0 "ethereum" 4000%float;
     Home.Sample t "bitcoin" 68000%float; Home.Sample t "ethereum" 3500%float]
  ∧ Home.metrics <$> Streamlit.rendered (fst (Home.run i s))
    = Some [Home.Metric "bitcoin" (Some 68000%float) (Some (-2000)%float);
            Home.Metric "ethereum" (Some 3500%float) (Some (-500)%float)].
Proof.
  intros s t i.
  assert (∃ c n,
            Home.fetch_prices (Home.net i) Home.API_URL (Home.cache_clock i)
              (Home.cache s) (Home.sent s)
            = (Py.Ret (None, Some "Network/HTTP error: timed out"), c, n))
    as (c & n & Hf).
  { eexists _, _. vm_compute. reflexivity. }
  destruct (failed_fetch_records_sample_prices i s None
              "Network/HTTP error: timed out" c n eq_refl Hf eq_refl)
    as [_ Hclocks].
  destruct Hclocks as [Hh Hm].
  - intros x Hx. apply list_elem_of_In in Hx.
    destruct Hx as [<-|[<-|[]]]; reflexivity.
  - vm_compute. discriminate.
  - split; [exact Hh|exact Hm].
Defined.

(** ** The order of the timestamps *)

Section order_facts.
Context {A : Type} (ts : A → Z).
Implicit Types (l : list A).






End order_facts.

Section distinct_facts.
Import Py Streamlit.




(** The cache after a run: cleared, or as the fetch left it. *)
Lemma home_run_cache i s :
  Home.cache (snd (Home.run i s)) = ∅
  ∨ Home.cache (snd (Home.run i s)) =
      snd (fst (Home.fetch_prices (Home.net i) Home.API_URL (Home.cache_clock i)
                  (Home.cache s) (Home.sent s))).
Proof.
  unfold Home.run. destruct (manual_refresh (Home.ui i)); [by left|].
  destruct (Home.fetch_prices _ _ _ _ _) as [[[[df err]|e] c] n]; simpl;
    [|by right].
  destruct (truthy err), df as [df|]; simpl; try (by right);
    try match goal with
    | |- context [Home.append_rows ?d ?t ?r ?h] =>
        destruct (Home.append_rows d t r h) as [[[]|e] h']
    end; simpl; try (by right);
    destruct (auto_refresh _); simpl; first [by left|by right].
Qed.





Lemma samples_of_ts now d x : x ∈ Home.samples_of now d → Home.ts x = now.
Proof.
  unfold Home.samples_of. by intros (r & -> & _)%list_elem_of_fmap.
Qed.

End distinct_facts.

Section home_order_facts.
Import Py Streamlit.

Lemma home_runs_cons i inputs s :
  snd (Home.runs (i :: inputs) s) = snd (Home.runs inputs (snd (Home.run i s))).
Proof.
  simpl. destruct (Home.run i s) as [e s']. simpl.
  by destruct (Home.runs inputs s') as [es s''].
Qed.

Lemma weather_runs_cons i inputs s :
  snd (WeatherLive.runs (i :: inputs) s)
  = snd (WeatherLive.runs inputs (snd (WeatherLive.run i s))).
Proof.
  simpl. destruct (WeatherLive.run i s) as [e s']. simpl.
  by destruct (WeatherLive.runs inputs s') as [es s''].
Qed.



End home_order_facts.

(** ** The claim about the order of the timestamps *)




(** ** Runs that hit the cache *)

Section cache_hit_facts.
Import Py Streamlit.

Lemma popleft_while_all_recent {A} (ts : A → Z) cutoff q :
  Forall (λ x, cutoff ≤ ts x) q → popleft_while ts cutoff q = q.
Proof.
  destruct 1 as [|x q Hx _]; [done|]. by apply popleft_while_recent_head.
Qed.

Lemma samples_of_quote_frame now quotes :
  Home.samples_of now (quote_frame quotes) = quote_samples now quotes.
Proof.
  unfold Home.samples_of, quote_frame, quote_samples. rewrite map_map.
  apply map_ext. by intros [c p].
Qed.

Lemma quote_frame_column quotes :
  quote_frame quotes = [] ∨ Home.has_column (quote_frame quotes) Home.VS = true.
Proof. destruct quotes as [|[c p] quotes]; [by left|by right]. Qed.

Lemma quote_samples_length now quotes :
  length (quote_samples now quotes) = length quotes.
Proof. unfold quote_samples. by rewrite length_map. Qed.

Lemma home_quiet_run_step t0 lo fields i s :
  fields = [] ∨ Home.has_column fields Home.VS = true →
  home_quiet_run t0 lo i →
  Home.cache s = <[Home.API_URL := CacheEntry (Some fields, None) t0]> ∅ →
  Forall (λ x, lo ≤ Home.ts x) (Home.price_history s) →
  snd (Home.run i s) =
    Home.Session (Home.cache s)
      (Home.price_history s ++ Home.samples_of (Home.now i) fields)
      (Home.sent s).
Proof.
  intros Hcol (Hb & Ha & Hc & Hcut & Hlo) Hcache Hrecent.
  rewrite (home_run_renders i s (Some fields) None (Home.cache s) (Home.sent s)
             fields); [|done| |done|done].
  - rewrite Ha. simpl. f_equal. apply popleft_while_all_recent.
    apply Forall_app. split.
    + eapply Forall_impl; [exact Hrecent|]. simpl. intros; lia.
    + apply Forall_forall. intros x Hx%samples_of_ts. lia.
  - apply call_hit. rewrite Hcache. by apply cached_insert.
Qed.

Lemma home_quiet_runs t0 lo fields more : ∀ s,
  fields = [] ∨ Home.has_column fields Home.VS = true →
  Forall (home_quiet_run t0 lo) more →
  Home.cache s = <[Home.API_URL := CacheEntry (Some fields, None) t0]> ∅ →
  Forall (λ x, lo ≤ Home.ts x) (Home.price_history s) →
  snd (Home.runs more s) =
    Home.Session (Home.cache s)
      (Home.price_history s
       ++ concat ((λ i, Home.samples_of (Home.now i) fields) <$> more))
      (Home.sent s).
Proof.
  induction more as [|i more IH]; intros s Hcol Hmore Hcache Hrecent.
  - simpl. rewrite app_nil_r. by destruct s.
  - apply Forall_cons in Hmore as [Hi Hmore].
    rewrite home_runs_cons.
    rewrite (home_quiet_run_step t0 lo fields i s) by done.
    rewrite IH; [|done|done|done|].
    + simpl. by rewrite <- (assoc_L (++)).
    + simpl. apply Forall_app. split; [done|].
      destruct Hi as (_ & _ & _ & _ & Hlo).
      apply Forall_forall. intros x Hx%samples_of_ts. lia.
Qed.

Lemma weather_quiet_run_step t0 r i s :
  weather_quiet_run t0 (WeatherLive.wtime r) i →
  WeatherLive.cache s = <[() := CacheEntry (Some [r], None) t0]> ∅ →
  Forall (λ x, WeatherLive.wtime r ≤ WeatherLive.ts x)
    (WeatherLive.weather_history s) →
  snd (WeatherLive.run i s) =
    WeatherLive.Session (WeatherLive.cache s)
      (WeatherLive.weather_history s ++ [weather_record r])
      (WeatherLive.sent s).
Proof.
  intros (Hb & Ha & Hc & Hcut) Hcache Hrecent.
  rewrite (weather_run_renders i s (Some [r]) None (WeatherLive.cache s)
             (WeatherLive.sent s) r []); [|done| |done].
  - rewrite Ha. simpl. f_equal. apply popleft_while_all_recent.
    apply Forall_app. split.
    + eapply Forall_impl; [exact Hrecent|]. simpl. intros; lia.
    + repeat constructor. simpl. lia.
  - apply call_hit. rewrite Hcache. by apply cached_insert.
Qed.

Lemma weather_quiet_runs t0 r more : ∀ s,
  Forall (weather_quiet_run t0 (WeatherLive.wtime r)) more →
  WeatherLive.cache s = <[() := CacheEntry (Some [r], None) t0]> ∅ →
  Forall (λ x, WeatherLive.wtime r ≤ WeatherLive.ts x)
    (WeatherLive.weather_history s) →
  snd (WeatherLive.runs more s) =
    WeatherLive.Session (WeatherLive.cache s)
      (WeatherLive.weather_history s ++ replicate (length more) (weather_record r))
      (WeatherLive.sent s).
Proof.
  induction more as [|i more IH]; intros s Hmore Hcache Hrecent.
  - simpl. rewrite app_nil_r. by destruct s.
  - apply Forall_cons in Hmore as [Hi Hmore].
    rewrite weather_runs_cons.
    rewrite (weather_quiet_run_step t0 r i s) by done.
    rewrite IH; [|done|done|].
    + simpl. by rewrite <- (assoc_L (++)).
    + simpl. apply Forall_app. split; [done|]. by repeat constructor.
Qed.

End cache_hit_facts.

(** ** The claim about appends on cache hits *)

(** C10, counterexample.  Not every script run appends.  A run in which
    the button was pressed clears the cache and asks for a rerun before
    the append is reached, and a run whose fetch raises ends inside the
    fetch: after either, the history is what it was. *)
Lemma run_cut_short_appends_nothing :
  let prices :=
    Py.Response 200 None ""
      (Home.Json (Home.JNested [("bitcoin", [("usd", 70000%float)]);
                                ("ethereum", [("usd", 4000%float)])])) in
  let odd :=
    Py.Response 200 None ""
      (Home.Json (Home.JFlat [("status", Home.JStr "maintenance")])) in
  let off := Streamlit.Widgets 30 false false in
  let pressed := Streamlit.Widgets 30 false true in
  let minute := Py.timedelta_minutes 1 in
  let first := Home.RunInput off (λ _, prices) 0 0 0 in
  let button := Home.RunInput pressed (λ _, prices) minute minute minute in
  let broken := Home.RunInput off (λ _, odd) minute minute minute in
  let s1 := snd (Home.run first Home.init) in
  let s2 := snd (Home.run button s1) in
  let s3 := snd (Home.run broken s2) in
  Home.price_history s1
  = [Home.Sample 0 "bitcoin" 70000%float; Home.Sample 0 "ethereum" 4000%float]
  ∧ fst (Home.run button s1) = Streamlit.ManualRerun
  ∧ Home.price_history s2 = Home.price_history s1
  ∧ fst (Home.run broken s2)
    = Streamlit.Crashed
        (Py.ValueError "If using all scalar values, you must pass an index")
  ∧ Home.price_history s3 = Home.price_history s1.
Proof. vm_compute. by repeat split. Qed.

(** C10, as amended.  A run that is not cut short appends, whether its
    fetch was a cache hit or a miss: nothing in the statement asks which
    it was.

    On the price page, a run in which the button was not pressed, whose
    call of [fetch_prices] returned, and which goes on with a frame of
    coins and their ["usd"] prices (the answer's, fresh or cached, or the
    sample frame) appends one record per coin, with that coin, that
    price and the run's [now], and then prunes.  On the weather page
    such a run appends one record: the reported time and the two
    measurements of the first row of its frame.

    So after a first run that fetched an answer, any number of further
    runs within the time to live (auto-refresh off, the button not
    pressed, no sample older than the cutoff) send no request, and each
    appends the cached values again: on the price page the same coins
    and prices under the run's own [now], on the weather page the same
    record, timestamp included.  One request, and a history as long as
    the number of runs (times the number of coins).

    A run that is cut short, by the button or by a fetch that raises,
    leaves the history as it was. *)
Theorem run_not_cut_short_appends_hit_or_miss :
  (∀ i s df err c n quotes,
     Streamlit.manual_refresh (Home.ui i) = false →
     Home.fetch_prices (Home.net i) Home.API_URL (Home.cache_clock i)
       (Home.cache s) (Home.sent s) = (Py.Ret (df, err), c, n) →
     home_shown df err = Some (quote_frame quotes) →
     Home.price_history (snd (Home.run i s))
     = Home.prune_history (Home.prune_clock i)
         (Home.price_history s ++ quote_samples (Home.now i) quotes))
  ∧ (∀ i s wdf werr c n r d,
     Streamlit.manual_refresh (WeatherLive.ui i) = false →
     WeatherLive.get_weather (WeatherLive.net i) (WeatherLive.cache_clock i)
       (WeatherLive.cache s) (WeatherLive.sent s) = (Py.Ret (wdf, werr), c, n) →
     weather_shown i wdf werr = Some (r :: d) →
     WeatherLive.weather_history (snd (WeatherLive.run i s))
     = WeatherLive.prune_weather (WeatherLive.prune_clock i)
         (WeatherLive.weather_history s
          ++ [WeatherLive.Sample (WeatherLive.wtime r)
                (WeatherLive.float_or_none (WeatherLive.temperature r))
                (WeatherLive.float_or_none (WeatherLive.wind r))]))
  ∧ (∀ first more quotes retry_after error_text lo,
     Home.net first Home.API_URL
     = Py.Response 200 retry_after error_text
         (Home.Json (Home.JNested (quote_frame quotes))) →
     Forall (home_quiet_run (Home.cache_clock first) lo) (first :: more) →
     let s := snd (Home.runs (first :: more) Home.init) in
     Home.sent s = 1%nat
     ∧ Home.price_history s
       = concat ((λ i, quote_samples (Home.now i) quotes) <$> first :: more)
     ∧ length (Home.price_history s) = (S (length more) * length quotes)%nat)
  ∧ (∀ first more j retry_after error_text,
     WeatherLive.net first
     = Py.Response 200 retry_after error_text (WeatherLive.Json (Some j)) →
     Forall (weather_quiet_run (WeatherLive.cache_clock first) (WeatherLive.time j))
       (first :: more) →
     let s := snd (WeatherLive.runs (first :: more) WeatherLive.init) in
     WeatherLive.sent s = 1%nat
     ∧ WeatherLive.weather_history s
       = replicate (S (length more))
           (WeatherLive.Sample (WeatherLive.time j)
              (WeatherLive.float_or_none (WeatherLive.temperature_2m j))
              (WeatherLive.float_or_none (WeatherLive.wind_speed_10m j))))
  ∧ (∀ i s,
     Streamlit.manual_refresh (Home.ui i) = true
     ∨ (∃ e c n,
          Home.fetch_prices (Home.net i) Home.API_URL (Home.cache_clock i)
            (Home.cache s) (Home.sent s) = (Py.Raise e, c, n)) →
     Home.price_history (snd (Home.run i s)) = Home.price_history s)
  ∧ (∀ i s,
     Streamlit.manual_refresh (WeatherLive.ui i) = true
     ∨ (∃ e c n,
          WeatherLive.get_weather (WeatherLive.net i) (WeatherLive.cache_clock i)
            (WeatherLive.cache s) (WeatherLive.sent s) = (Py.Raise e, c, n)) →
     WeatherLive.weather_history (snd (WeatherLive.run i s))
     = WeatherLive.weather_history s).
Proof.
  split_and!.
  - intros i s df err c n quotes Hb Hf Hd.
    rewrite (home_run_renders i s df err c n (quote_frame quotes) Hb Hf Hd
               (quote_frame_column quotes)).
    rewrite samples_of_quote_frame. by destruct (Streamlit.auto_refresh _).
  - intros i s wdf werr c n r d Hb Hf Hd.
    rewrite (weather_run_renders i s wdf werr c n r d Hb Hf Hd).
    by destruct (Streamlit.auto_refresh _).
  - intros first more quotes ra et lo Hnet Hall s.
    apply Forall_cons in Hall as [(Hb & Ha & _ & Hcut & Hlo) Hmore].
    set (fields := quote_frame quotes) in *.
    assert (snd (Home.run first Home.init)
            = Home.Session
                (<[Home.API_URL :=
                     Streamlit.CacheEntry (Some fields, None) (Home.cache_clock first)]> ∅)
                (Home.samples_of (Home.now first) fields) 1) as Hfirst.
    { rewrite (home_run_renders first Home.init (Some fields) None
                 (<[Home.API_URL :=
                      Streamlit.CacheEntry (Some fields, None)
                        (Home.cache_clock first)]> ∅)
                 1 fields); [|done| |done|apply quote_frame_column].
      - rewrite Ha. cbn [snd]. f_equal.
        change (Home.price_history Home.init) with (@nil Home.sample).
        rewrite app_nil_l. apply popleft_while_all_recent.
        apply Forall_forall. intros x Hx%samples_of_ts.
        rewrite Hx. by etrans.
      - unfold Home.fetch_prices. rewrite call_miss by apply cached_empty.
        unfold Streamlit.call_through, Home.fetch_prices_body.
        by rewrite Hnet. }
    subst s. rewrite home_runs_cons, Hfirst.
    rewrite (home_quiet_runs (Home.cache_clock first) lo fields more);
      [|apply quote_frame_column|done|done|].
    + cbn [Home.sent Home.price_history]. csimpl.
      assert (concat ((λ i, Home.samples_of (Home.now i) fields) <$> more)
              = concat ((λ i, quote_samples (Home.now i) quotes) <$> more)) as ->.
      { f_equal. apply list_fmap_ext. intros _ i _. apply samples_of_quote_frame. }
      unfold fields. rewrite samples_of_quote_frame.
      split; [done|]. split; [done|].
      rewrite length_app, quote_samples_length. f_equal.
      clear. induction more as [|i more IH]; csimpl; [done|].
      by rewrite length_app, quote_samples_length, IH.
    + simpl. apply Forall_forall. intros x Hx%samples_of_ts. lia.
  - intros first more j ra et Hnet Hall s.
    apply Forall_cons in Hall as [(Hb & Ha & _ & Hcut) Hmore].
    set (r := WeatherLive.WRow (WeatherLive.time j) (WeatherLive.temperature_2m j)
                (WeatherLive.wind_speed_10m j)).
    assert (snd (WeatherLive.run first WeatherLive.init)
            = WeatherLive.Session
                (<[() := Streamlit.CacheEntry (Some [r], None)
                           (WeatherLive.cache_clock first)]> ∅)
                [weather_record r] 1) as Hfirst.
    { rewrite (weather_run_renders first WeatherLive.init (Some [r]) None
                 (<[() := Streamlit.CacheEntry (Some [r], None)
                            (WeatherLive.cache_clock first)]> ∅)
                 1 r []); [|done| |done].
      - rewrite Ha. cbn [snd]. f_equal.
        change (WeatherLive.weather_history WeatherLive.init)
          with (@nil WeatherLive.sample).
        rewrite app_nil_l. apply popleft_while_all_recent.
        repeat constructor. exact Hcut.
      - unfold WeatherLive.get_weather. rewrite call_miss by apply cached_empty.
        unfold Streamlit.call_through, WeatherLive.get_weather_body.
        by rewrite Hnet. }
    subst s. rewrite weather_runs_cons, Hfirst.
    rewrite (weather_quiet_runs (WeatherLive.cache_clock first) r more);
      [|done|done|by repeat constructor].
    by simpl.
  - intros i s Hcut. unfold Home.run.
    destruct (Streamlit.manual_refresh (Home.ui i)); [done|].
    destruct Hcut as [?|(e & c & n & ->)]; done.
  - intros i s Hcut. unfold WeatherLive.run.
    destruct (Streamlit.manual_refresh (WeatherLive.ui i)); [done|].
    destruct Hcut as [?|(e & c & n & ->)]; done.
Qed.

(** Three runs of the price page within three minutes of one answer,
    and four runs of the weather page within five. *)
Lemma run_not_cut_short_appends_hit_or_miss_witness :
  let off := Streamlit.Widgets 30 false false in
  let at_ m := Py.timedelta_minutes m in
  let prices :=
    Py.Response 200 None ""
      (Home.Json (Home.JNested [("bitcoin", [("usd", 70000%float)]);
                                ("ethereum", [("usd", 4000%float)])])) in
  let price_run m := Home.RunInput off (λ _, prices) (at_ m) (at_ m) (at_ m) in
  let hs := snd (Home.runs [price_run 1; price_run 2; price_run 4] Home.init) in
  let answer :=
    Py.Response 200 None ""
      (WeatherLive.Json (Some (WeatherLive.Reading 0 20%float 3%float))) in
  let run_at m := WeatherLive.RunInput off answer (at_ m) (at_ m) (at_ m) in
  let ws := snd (WeatherLive.runs [run_at 1; run_at 2; run_at 3; run_at 5]
                   WeatherLive.init) in
  (Home.sent hs = 1%nat
   ∧ Home.price_history hs
     = [Home.Sample (at_ 1) "bitcoin" 70000%float;
        Home.Sample (at_ 1) "ethereum" 4000%float;
        Home.Sample (at_ 2) "bitcoin" 70000%float;
        Home.Sample (at_ 2) "ethereum" 4000%float;
        Home.Sample (at_ 4) "bitcoin" 70000%float;
        Home.Sample (at_ 4) "ethereum" 4000%float]
   ∧ length (Home.price_history hs) = 6%nat)
  ∧ (WeatherLive.sent ws = 1%nat
     ∧ WeatherLive.weather_history ws
       = replicate 4 (WeatherLive.Sample 0 (Some 20%float) (Some 3%float))).
Proof.
  intros off at_ prices price_run hs answer run_at ws. split.
  - apply (proj1 (proj2 (proj2 run_not_cut_short_appends_hit_or_miss))
             (price_run 1) [price_run 2; price_run 4]
             [("bitcoin", 70000%float); ("ethereum", 4000%float)] None "" 0
             eq_refl).
    repeat constructor; vm_compute; congruence.
  - apply (proj1 (proj2 (proj2 (proj2 run_not_cut_short_appends_hit_or_miss)))
             (run_at 1) [run_at 2; run_at 3; run_at 5]
             (WeatherLive.Reading 0 20%float 3%float) None "" eq_refl).
    repeat constructor; vm_compute; congruence.
Defined.

(** * Further properties of the two pages *)

(** ** Vocabulary *)

(** What a fetch function promises to return: a frame and no message, or
    no frame and a message that [if err:] takes as true. *)
Definition frame_or_message {F} (r : option F * option string) : Prop :=
  match r with
  | (Some _, None) => True
  | (None, Some msg) => Py.truthy (Some msg) = true
  | _ => False
  end.

(** Every value in the cache of the price page is as promised. *)
Definition home_cache_sound
    (c : gmap string (Streamlit.cache_entry Home.fetch_result)) : Prop :=
  ∀ k e, c !! k = Some e → frame_or_message (Streamlit.value e).

(** Every value in the cache of the weather page is as promised, and a
    cached frame has one row. *)
Definition weather_cache_sound
    (c : gmap () (Streamlit.cache_entry WeatherLive.fetch_result)) : Prop :=
  ∀ k e, c !! k = Some e →
    frame_or_message (Streamlit.value e)
    ∧ ∀ d, fst (Streamlit.value e) = Some d → ∃ r, d = [r].


(** ** What the fetch functions return *)

Section fetch_result_facts.
Import Py Streamlit.

Lemma network_error_truthy msg : truthy (Some (network_error msg)) = true.
Proof. reflexivity. Qed.

Lemma too_many_requests_truthy ra : truthy (Some (too_many_requests ra)) = true.
Proof. reflexivity. Qed.

Lemma fetch_prices_body_shape net url n r :
  fst (Home.fetch_prices_body net url n) = Ret r → frame_or_message r.
Proof.
  unfold Home.fetch_prices_body. simpl.
  destruct (net url) as [msg|status ra et body]; [by intros [= <-]|].
  destruct (status =? 429); [by intros [= <-]|].
  destruct (is_error_status status); [by intros [= <-]|].
  destruct body as [msg|data]; [by intros [= <-]|].
  destruct (Home.to_frame data); by intros [= <-].
Qed.

Lemma get_weather_body_shape net u n r :
  fst (WeatherLive.get_weather_body net u n) = Ret r →
  frame_or_message r ∧ ∀ d, fst r = Some d → ∃ row, d = [row].
Proof.
  unfold WeatherLive.get_weather_body. simpl.
  destruct net as [msg|status ra et body]; [by intros [= <-]|].
  destruct (status =? 429); [by intros [= <-]|].
  destruct (is_error_status status); [by intros [= <-]|].
  destruct body as [msg|[j|]]; [by intros [= <-]| |done].
  intros [= <-]. split; [done|]. intros d [= <-]. by eexists.
Qed.

End fetch_result_facts.

Section promise_facts.
Import Py Streamlit.

(** A cached call keeps a sound cache sound and returns what was
    promised, from the cache or from the network. *)
Lemma fetch_prices_sound net url t c n r c' n' :
  home_cache_sound c →
  Home.fetch_prices net url t c n = (r, c', n') →
  home_cache_sound c' ∧ (∀ v, r = Ret v → frame_or_message v).
Proof.
  intros Hc. unfold Home.fetch_prices, call, cached.
  assert (call_through (Home.fetch_prices_body net) url t c n = (r, c', n') →
          home_cache_sound c'
          ∧ (∀ v, r = Ret v → frame_or_message v)) as Hthrough.
  { unfold call_through.
    destruct (Home.fetch_prices_body net url n) as [[v|ex] m] eqn:Hf;
      intros [= <- <- <-]; [|done].
    assert (frame_or_message v) as Hv.
    { apply (fetch_prices_body_shape net url n). by rewrite Hf. }
    split; [|by intros ? [= <-]].
    intros k e. rewrite lookup_insert. case_decide; [|by apply Hc].
    by intros [= <-]. }
  destruct (c !! url) as [e|] eqn:He; [|done].
  destruct (fresh Home.TTL e t); [|done].
  intros [= <- <- <-]. split; [done|].
  intros v [= <-]. by eapply Hc.
Qed.

Lemma get_weather_sound net t c n r c' n' :
  weather_cache_sound c →
  WeatherLive.get_weather net t c n = (r, c', n') →
  weather_cache_sound c'
  ∧ (∀ v, r = Ret v →
       frame_or_message v ∧ ∀ d, fst v = Some d → ∃ row, d = [row]).
Proof.
  intros Hc. unfold WeatherLive.get_weather, call, cached.
  assert (call_through (WeatherLive.get_weather_body net) () t c n = (r, c', n') →
          weather_cache_sound c'
          ∧ (∀ v, r = Ret v →
               frame_or_message v ∧ ∀ d, fst v = Some d → ∃ row, d = [row]))
    as Hthrough.
  { unfold call_through.
    destruct (WeatherLive.get_weather_body net () n) as [[v|ex] m] eqn:Hf;
      intros [= <- <- <-]; [|done].
    assert (frame_or_message v ∧ ∀ d, fst v = Some d → ∃ row, d = [row]) as Hv.
    { apply (get_weather_body_shape net () n). by rewrite Hf. }
    split; [|by intros ? [= <-]].
    intros k e. rewrite lookup_insert. case_decide; [|by apply Hc].
    by intros [= <-]. }
  destruct (c !! ()) as [e|] eqn:He; [|done].
  destruct (fresh WeatherLive.TTL e t); [|done].
  intros [= <- <- <-]. split; [done|].
  intros v [= <-]. by eapply Hc.
Qed.

(** The cache of the weather page after a run: cleared, or as the fetch
    left it. *)
Lemma weather_run_cache i s :
  WeatherLive.cache (snd (WeatherLive.run i s)) = ∅
  ∨ WeatherLive.cache (snd (WeatherLive.run i s)) =
      snd (fst (WeatherLive.get_weather (WeatherLive.net i)
                  (WeatherLive.cache_clock i)
                  (WeatherLive.cache s) (WeatherLive.sent s))).
Proof.
  unfold WeatherLive.run. destruct (manual_refresh (WeatherLive.ui i)); [by left|].
  destruct (WeatherLive.get_weather _ _ _ _) as [[[[wdf werr]|e] c] n]; simpl;
    [|by right].
  destruct (truthy werr), wdf as [[|r d]|]; simpl; try (by right);
    destruct (auto_refresh _); simpl; first [by left|by right].
Qed.

Lemma home_run_sound i s :
  home_cache_sound (Home.cache s) →
  home_cache_sound (Home.cache (snd (Home.run i s))).
Proof.
  intros Hc. destruct (home_run_cache i s) as [->| ->].
  - intros k e. by rewrite lookup_empty.
  - destruct (Home.fetch_prices _ _ _ _ _) as [[r c] n] eqn:Hf.
    by destruct (fetch_prices_sound _ _ _ _ _ _ _ _ Hc Hf).
Qed.

Lemma weather_run_sound i s :
  weather_cache_sound (WeatherLive.cache s) →
  weather_cache_sound (WeatherLive.cache (snd (WeatherLive.run i s))).
Proof.
  intros Hc. destruct (weather_run_cache i s) as [->| ->].
  - intros k e. by rewrite lookup_empty.
  - destruct (WeatherLive.get_weather _ _ _ _) as [[r c] n] eqn:Hf.
    by destruct (get_weather_sound _ _ _ _ _ _ _ Hc Hf).
Qed.

Lemma home_runs_sound inputs : ∀ s,
  home_cache_sound (Home.cache s) →
  home_cache_sound (Home.cache (snd (Home.runs inputs s))).
Proof.
  induction inputs as [|i inputs IH]; intros s Hc; [done|].
  rewrite home_runs_cons. by apply IH, home_run_sound.
Qed.

Lemma weather_runs_sound inputs : ∀ s,
  weather_cache_sound (WeatherLive.cache s) →
  weather_cache_sound (WeatherLive.cache (snd (WeatherLive.runs inputs s))).
Proof.
  induction inputs as [|i inputs IH]; intros s Hc; [done|].
  rewrite weather_runs_cons. by apply IH, weather_run_sound.
Qed.

End promise_facts.

(** X1.  Whatever the network answers, when a fetch function returns it
    returns a frame and no message, or no frame and a message that is
    not empty; the frame of [get_weather] has exactly one row.  So the
    test [if err:] is taken exactly when there is no frame. *)
Theorem fetch_returns_frame_or_message :
  (∀ net url n r,
     fst (Home.fetch_prices_body net url n) = Py.Ret r → frame_or_message r)
  ∧ (∀ net u n r,
     fst (WeatherLive.get_weather_body net u n) = Py.Ret r →
     frame_or_message r ∧ ∀ d, fst r = Some d → ∃ row, d = [row]).
Proof.
  split.
  - apply fetch_prices_body_shape.
  - apply get_weather_body_shape.
Qed.


(** X3.  From a fresh session, whatever the inputs of the runs so far
    and whatever the network answers now, a call of the cached fetch
    that returns hands the script what the function promises: a frame
    and no message, or no frame and a message that [if err:] takes as
    true (and the weather frame has one row).  The cache never holds
    anything else.  So the lines after the [if err:] branch never find
    [df] to be [None]. *)
Theorem fresh_session_fetch_keeps_promise :
  (∀ inputs net url t r c n,
     let s := snd (Home.runs inputs Home.init) in
     Home.fetch_prices net url t (Home.cache s) (Home.sent s) = (Py.Ret r, c, n) →
     frame_or_message r ∧ is_Some (home_shown (fst r) (snd r)))
  ∧ (∀ inputs i net t r c n,
     let s := snd (WeatherLive.runs inputs WeatherLive.init) in
     WeatherLive.get_weather net t (WeatherLive.cache s) (WeatherLive.sent s)
     = (Py.Ret r, c, n) →
     frame_or_message r
     ∧ ∃ row, weather_shown i (fst r) (snd r) = Some [row]).
Proof.
  split.
  - intros inputs net url t r c n s Hf.
    assert (home_cache_sound (Home.cache s)) as Hc.
    { apply home_runs_sound. intros k e. simpl. by rewrite lookup_empty. }
    destruct (fetch_prices_sound _ _ _ _ _ _ _ _ Hc Hf) as [_ Hret].
    specialize (Hret r eq_refl). split; [done|].
    destruct r as [[d|] [msg|]]; unfold frame_or_message in Hret; try done.
    unfold home_shown. cbn [fst snd]. by rewrite Hret.
  - intros inputs i net t r c n s Hf.
    assert (weather_cache_sound (WeatherLive.cache s)) as Hc.
    { apply weather_runs_sound. intros k e. simpl. by rewrite lookup_empty. }
    destruct (get_weather_sound _ _ _ _ _ _ _ Hc Hf) as [_ Hret].
    destruct (Hret r eq_refl) as [Hshape Hrow]. split; [done|].
    destruct r as [[d|] [msg|]]; unfold frame_or_message in Hshape; try done.
    + destruct (Hrow d eq_refl) as [row ->]. by exists row.
    + unfold weather_shown. cbn [fst snd]. rewrite Hshape. by eexists.
Qed.

(** A run whose request fails, then a call within the time to live: the
    cached failure comes back, a message and no frame. *)
Lemma fresh_session_fetch_keeps_promise_witness :
  let down := λ _ : string, Py.ConnectionFailed "timed out" in
  let i := Home.RunInput (Streamlit.Widgets 30 false false) down 0 0 0 in
  let r : Home.fetch_result := (None, Some (Py.network_error "timed out")) in
  frame_or_message r ∧ is_Some (home_shown (fst r) (snd r)).
Proof.
  intros down i r.
  assert (∃ c n,
            Home.fetch_prices down Home.API_URL (Py.timedelta_seconds 60)
              (Home.cache (snd (Home.runs [i] Home.init)))
              (Home.sent (snd (Home.runs [i] Home.init)))
            = (Py.Ret r, c, n)) as (c & n & Hf).
  { eexists _, _. vm_compute. reflexivity. }
  exact (proj1 fresh_session_fetch_keeps_promise [i] down Home.API_URL
           (Py.timedelta_seconds 60) r c n Hf).
Defined.

(** ** Requests and the time to live *)

Section request_facts.
Import Py Streamlit.

Lemma fetch_prices_hit_sent net url t c n v :
  cached Home.TTL c url t = Some v →
  Home.fetch_prices net url t c n = (Ret v, c, n).
Proof. intros Hc. by apply call_hit. Qed.

Lemma get_weather_hit_sent net t c n v :
  cached WeatherLive.TTL c () t = Some v →
  WeatherLive.get_weather net t c n = (Ret v, c, n).
Proof. intros Hc. by apply call_hit. Qed.

(** A miss whose body returns: the value comes back and is stored with
    the reading of the cache clock. *)
Lemma fetch_prices_miss_returns net url t c n v :
  cached Home.TTL c url t = None →
  fst (Home.fetch_prices_body net url n) = Ret v →
  Home.fetch_prices net url t c n = (Ret v, <[url := CacheEntry v t]> c, S n).
Proof.
  intros Hc Hv. unfold Home.fetch_prices. rewrite call_miss by done.
  unfold call_through.
  destruct (Home.fetch_prices_body net url n) as [r m] eqn:Hf.
  assert (m = S n) as ->.
  { apply (f_equal snd) in Hf. by unfold Home.fetch_prices_body in Hf. }
  simpl in Hv. by subst r.
Qed.

Lemma get_weather_miss_returns net t c n v :
  cached WeatherLive.TTL c () t = None →
  fst (WeatherLive.get_weather_body net () n) = Ret v →
  WeatherLive.get_weather net t c n = (Ret v, <[() := CacheEntry v t]> c, S n).
Proof.
  intros Hc Hv. unfold WeatherLive.get_weather. rewrite call_miss by done.
  unfold call_through.
  destruct (WeatherLive.get_weather_body net () n) as [r m] eqn:Hf.
  assert (m = S n) as ->.
  { apply (f_equal snd) in Hf. by unfold WeatherLive.get_weather_body in Hf. }
  simpl in Hv. by subst r.
Qed.

End request_facts.

(** X4.  A run sends at most one request, and exactly when it must: none
    when the button cuts it short, none when the cache holds an entry
    younger than the time to live, one otherwise. *)
Theorem run_sends_one_request_on_miss_only :
  (∀ i s,
     Home.sent (snd (Home.run i s))
     = if Streamlit.manual_refresh (Home.ui i) then Home.sent s
       else match Streamlit.cached Home.TTL (Home.cache s) Home.API_URL
                    (Home.cache_clock i) with
            | Some _ => Home.sent s
            | None => S (Home.sent s)
            end)
  ∧ (∀ i s,
     WeatherLive.sent (snd (WeatherLive.run i s))
     = if Streamlit.manual_refresh (WeatherLive.ui i) then WeatherLive.sent s
       else match Streamlit.cached WeatherLive.TTL (WeatherLive.cache s) ()
                    (WeatherLive.cache_clock i) with
            | Some _ => WeatherLive.sent s
            | None => S (WeatherLive.sent s)
            end).
Proof.
  split; intros i s.
  - destruct (Streamlit.manual_refresh (Home.ui i)) eqn:Hb.
    { unfold Home.run. by rewrite Hb. }
    rewrite home_run_sent by done.
    destruct (Streamlit.cached _ _ _ _) as [v|] eqn:Hc.
    + by rewrite (fetch_prices_hit_sent _ _ _ _ _ v).
    + by apply fetch_prices_miss_sent.
  - destruct (Streamlit.manual_refresh (WeatherLive.ui i)) eqn:Hb.
    { unfold WeatherLive.run. by rewrite Hb. }
    rewrite weather_run_sent by done.
    destruct (Streamlit.cached _ _ _ _) as [v|] eqn:Hc.
    + by rewrite (get_weather_hit_sent _ _ _ _ v).
    + by apply get_weather_miss_sent.
Qed.

(** X5.  An entry as old as the time to live (300 seconds for the
    prices, 600 for the weather) is not served: the call sends a
    request, and when the body returns, the new value replaces the old
    entry, stamped with the new reading of the clock. *)
Theorem expired_entry_is_fetched_again :
  (∀ net url t0 t1 c n old,
     Home.TTL ≤ t1 - t0 →
     let stale := <[url := Streamlit.CacheEntry old t0]> c in
     snd (Home.fetch_prices net url t1 stale n) = S n
     ∧ ∀ v, fst (Home.fetch_prices_body net url n) = Py.Ret v →
            Home.fetch_prices net url t1 stale n
            = (Py.Ret v, <[url := Streamlit.CacheEntry v t1]> c, S n))
  ∧ (∀ net t0 t1 c n old,
     WeatherLive.TTL ≤ t1 - t0 →
     let stale := <[() := Streamlit.CacheEntry old t0]> c in
     snd (WeatherLive.get_weather net t1 stale n) = S n
     ∧ ∀ v, fst (WeatherLive.get_weather_body net () n) = Py.Ret v →
            WeatherLive.get_weather net t1 stale n
            = (Py.Ret v, <[() := Streamlit.CacheEntry v t1]> c, S n)).
Proof.
  split.
  - intros net url t0 t1 c n old Ht stale.
    assert (Streamlit.cached Home.TTL stale url t1 = None) as Hc.
    { by apply (cached_stale _ _ _ _ (Streamlit.CacheEntry old t0));
        [apply lookup_insert_eq|]. }
    split; [by apply fetch_prices_miss_sent|].
    intros v Hv. rewrite (fetch_prices_miss_returns _ _ _ _ _ v) by done.
    subst stale. by rewrite insert_insert_eq.
  - intros net t0 t1 c n old Ht stale.
    assert (Streamlit.cached WeatherLive.TTL stale () t1 = None) as Hc.
    { by apply (cached_stale _ _ _ _ (Streamlit.CacheEntry old t0));
        [apply lookup_insert_eq|]. }
    split; [by apply get_weather_miss_sent|].
    intros v Hv. rewrite (get_weather_miss_returns _ _ _ _ v) by done.
    subst stale. by rewrite insert_insert_eq.
Qed.

(** The price page 300 seconds after a first answer: the cache is asked
    again and the second answer replaces the first. *)
Lemma expired_entry_is_fetched_again_witness :
  let first := (Some [("bitcoin", [("usd", 70000%float)])], None) in
  let second := [("bitcoin", [("usd", 71000%float)])] in
  let net := λ _ : string,
    Py.Response 200 None "" (Home.Json (Home.JNested second)) in
  let t1 := Py.timedelta_seconds 300 in
  Home.fetch_prices net Home.API_URL t1
    (<[Home.API_URL := Streamlit.CacheEntry first 0]> ∅) 1%nat
  = (Py.Ret (Some second, None),
     <[Home.API_URL := Streamlit.CacheEntry (Some second, None) t1]> ∅, 2%nat).
Proof.
  intros first second net t1.
  apply (proj1 expired_entry_is_fetched_again net Home.API_URL 0 t1 ∅ 1%nat first).
  - vm_compute. discriminate.
  - reflexivity.
Defined.

(** ** Failures and the cache *)

(** X6.  A failure is cached like an answer.  When a run with
    auto-refresh off fetches and gets an error message, a run that
    follows within the time to live (button not pressed) sends no
    request and shows the same warning over the fallback, whatever the
    network would answer by then. *)
Theorem failure_is_served_from_cache :
  (∀ i j s msg,
     Streamlit.manual_refresh (Home.ui i) = false →
     Streamlit.auto_refresh (Home.ui i) = false →
     Streamlit.cached Home.TTL (Home.cache s) Home.API_URL (Home.cache_clock i)
       = None →
     fst (Home.fetch_prices_body (Home.net i) Home.API_URL (Home.sent s))
       = Py.Ret (None, Some msg) →
     Streamlit.manual_refresh (Home.ui j) = false →
     Home.cache_clock j - Home.cache_clock i < Home.TTL →
     let s' := snd (Home.run i s) in
     Home.sent s' = S (Home.sent s)
     ∧ Home.sent (snd (Home.run j s')) = Home.sent s'
     ∧ Home.warning <$> Streamlit.rendered (fst (Home.run j s'))
       = Some (Some (Home.sample_notice msg))
     ∧ Home.table <$> Streamlit.rendered (fst (Home.run j s'))
       = Some Home.SAMPLE_DF)
  ∧ (∀ i j s msg,
     Streamlit.manual_refresh (WeatherLive.ui i) = false →
     Streamlit.auto_refresh (WeatherLive.ui i) = false →
     Streamlit.cached WeatherLive.TTL (WeatherLive.cache s) ()
       (WeatherLive.cache_clock i) = None →
     fst (WeatherLive.get_weather_body (WeatherLive.net i) () (WeatherLive.sent s))
       = Py.Ret (None, Some msg) →
     Streamlit.manual_refresh (WeatherLive.ui j) = false →
     WeatherLive.cache_clock j - WeatherLive.cache_clock i < WeatherLive.TTL →
     let s' := snd (WeatherLive.run i s) in
     WeatherLive.sent s' = S (WeatherLive.sent s)
     ∧ WeatherLive.sent (snd (WeatherLive.run j s')) = WeatherLive.sent s'
     ∧ WeatherLive.warning <$> Streamlit.rendered (fst (WeatherLive.run j s'))
       = Some (Some msg)
     ∧ WeatherLive.table <$> Streamlit.rendered (fst (WeatherLive.run j s'))
       = Some [WeatherLive.WRow (WeatherLive.now j) nan nan]).
Proof.
  split.
  - intros i j s msg Hbi Hai Hmiss Hbody Hbj Hclock s'.
    assert (Py.truthy (Some msg) = true) as Htruthy.
    { by apply (fetch_prices_body_shape _ _ _ _ Hbody). }
    pose proof (fetch_prices_miss_returns _ _ (Home.cache_clock i) _ _ _
                  Hmiss Hbody) as Hfi.
    pose proof (home_run_renders i s None (Some msg) _ _ Home.SAMPLE_DF Hbi Hfi)
      as Hrun.
    unfold home_shown in Hrun. rewrite Htruthy, Hai in Hrun.
    specialize (Hrun eq_refl (or_intror eq_refl)). cbv zeta in Hrun.
    subst s'. rewrite Hrun. cbn [snd Home.sent].
    split; [done|].
    match goal with |- context [Home.run j ?st] => set (s1 := st) end.
    assert (Home.fetch_prices (Home.net j) Home.API_URL (Home.cache_clock j)
              (Home.cache s1) (Home.sent s1)
            = (Py.Ret (None, Some msg), Home.cache s1, Home.sent s1)) as Hfj.
    { apply fetch_prices_hit_sent. subst s1. cbn [Home.cache].
      by apply cached_insert. }
    pose proof (home_run_renders j s1 None (Some msg) _ _ Home.SAMPLE_DF Hbj Hfj)
      as Hrun'.
    unfold home_shown in Hrun'. rewrite Htruthy in Hrun'.
    specialize (Hrun' eq_refl (or_intror eq_refl)). cbv zeta in Hrun'.
    rewrite Hrun'. unfold home_page. by rewrite Htruthy.
  - intros i j s msg Hbi Hai Hmiss Hbody Hbj Hclock s'.
    assert (Py.truthy (Some msg) = true) as Htruthy.
    { by apply (get_weather_body_shape _ _ _ _ Hbody). }
    pose proof (get_weather_miss_returns _ (WeatherLive.cache_clock i) _ _ _
                  Hmiss Hbody) as Hfi.
    pose proof (weather_run_renders i s None (Some msg) _ _
                  (WeatherLive.WRow (WeatherLive.now i) nan nan) [] Hbi Hfi)
      as Hrun.
    unfold weather_shown in Hrun. rewrite Htruthy, Hai in Hrun.
    specialize (Hrun eq_refl). cbv zeta in Hrun.
    subst s'. rewrite Hrun. cbn [snd WeatherLive.sent].
    split; [done|].
    match goal with |- context [WeatherLive.run j ?st] => set (s1 := st) end.
    assert (WeatherLive.get_weather (WeatherLive.net j) (WeatherLive.cache_clock j)
              (WeatherLive.cache s1) (WeatherLive.sent s1)
            = (Py.Ret (None, Some msg), WeatherLive.cache s1, WeatherLive.sent s1))
      as Hfj.
    { apply get_weather_hit_sent. subst s1. cbn [WeatherLive.cache].
      by apply cached_insert. }
    pose proof (weather_run_renders j s1 None (Some msg) _ _
                  (WeatherLive.WRow (WeatherLive.now j) nan nan) [] Hbj Hfj)
      as Hrun'.
    unfold weather_shown in Hrun'. rewrite Htruthy in Hrun'.
    specialize (Hrun' eq_refl). cbv zeta in Hrun'.
    rewrite Hrun'. unfold weather_page. by rewrite Htruthy.
Qed.

(** A timeout on the price page, and thirty seconds later a network
    that would answer: the second run asks nothing and warns again. *)
Lemma failure_is_served_from_cache_witness :
  let off := Streamlit.Widgets 30 false false in
  let i := Home.RunInput off (λ _, Py.ConnectionFailed "timed out") 0 0 0 in
  let later := Py.timedelta_seconds 30 in
  let j := Home.RunInput off
             (λ _, Py.Response 200 None ""
                (Home.Json (Home.JNested [("bitcoin", [("usd", 70000%float)])])))
             later later later in
  let s' := snd (Home.run i Home.init) in
  Home.sent s' = 1%nat
  ∧ Home.sent (snd (Home.run j s')) = 1%nat
  ∧ Home.warning <$> Streamlit.rendered (fst (Home.run j s'))
    = Some (Some (Home.sample_notice "Network/HTTP error: timed out"))
  ∧ Home.table <$> Streamlit.rendered (fst (Home.run j s')) = Some Home.SAMPLE_DF.
Proof.
  intros off i later j s'.
  apply (proj1 failure_is_served_from_cache i j Home.init
           "Network/HTTP error: timed out"); try reflexivity.
Defined.

(** ** Auto-refresh and the cache *)

Section auto_refresh_facts.
Import Py Streamlit.

Lemma home_runs_cons_ends i inputs s :
  fst (Home.runs (i :: inputs) s)
  = fst (Home.run i s) :: fst (Home.runs inputs (snd (Home.run i s))).
Proof.
  simpl. destruct (Home.run i s) as [e s']. simpl.
  by destruct (Home.runs inputs s') as [es s''].
Qed.

Lemma weather_runs_cons_ends i inputs s :
  fst (WeatherLive.runs (i :: inputs) s)
  = fst (WeatherLive.run i s)
    :: fst (WeatherLive.runs inputs (snd (WeatherLive.run i s))).
Proof.
  simpl. destruct (WeatherLive.run i s) as [e s']. simpl.
  by destruct (WeatherLive.runs inputs s') as [es s''].
Qed.

Lemma home_auto_runs_sent inputs : ∀ s,
  Home.cache s = ∅ →
  Forall (λ i, manual_refresh (Home.ui i) = false
               ∧ auto_refresh (Home.ui i) = true) inputs →
  Forall (λ e, is_Some (rendered e)) (fst (Home.runs inputs s)) →
  Home.sent (snd (Home.runs inputs s)) = (Home.sent s + length inputs)%nat.
Proof.
  induction inputs as [|i inputs IH]; intros s Hc Hin Hends.
  { simpl. lia. }
  apply Forall_cons in Hin as [[Hb Ha] Hin].
  rewrite home_runs_cons_ends in Hends. apply Forall_cons in Hends as [He Hends].
  rewrite home_runs_cons.
  destruct (fst (Home.run i s)) as [p r| |ex] eqn:Hend;
    try (by destruct He as [? [=]]).
  destruct (home_run_rendered_end i s p r Hb Hend) as [_ Hclear].
  rewrite IH; [|by apply Hclear|done|done].
  rewrite home_run_sent by done.
  rewrite fetch_prices_miss_sent by (rewrite Hc; apply cached_empty).
  simpl. lia.
Qed.

Lemma weather_auto_runs_sent inputs : ∀ s,
  WeatherLive.cache s = ∅ →
  Forall (λ i, manual_refresh (WeatherLive.ui i) = false
               ∧ auto_refresh (WeatherLive.ui i) = true) inputs →
  Forall (λ e, is_Some (rendered e)) (fst (WeatherLive.runs inputs s)) →
  WeatherLive.sent (snd (WeatherLive.runs inputs s))
  = (WeatherLive.sent s + length inputs)%nat.
Proof.
  induction inputs as [|i inputs IH]; intros s Hc Hin Hends.
  { simpl. lia. }
  apply Forall_cons in Hin as [[Hb Ha] Hin].
  rewrite weather_runs_cons_ends in Hends.
  apply Forall_cons in Hends as [He Hends].
  rewrite weather_runs_cons.
  destruct (fst (WeatherLive.run i s)) as [p r| |ex] eqn:Hend;
    try (by destruct He as [? [=]]).
  destruct (weather_run_rendered_end i s p r Hb Hend) as [_ Hclear].
  rewrite IH; [|by apply Hclear|done|done].
  rewrite weather_run_sent by done.
  rewrite get_weather_miss_sent by (rewrite Hc; apply cached_empty).
  simpl. lia.
Qed.

End auto_refresh_facts.

(** X7.  With auto-refresh on the cache never serves a hit: every run
    ends by clearing it, so from a fresh session a sequence of runs that
    all show their page sends one request per run, however short the
    interval and whatever the time to live. *)
Theorem auto_refresh_fetches_on_every_run :
  (∀ inputs,
     Forall (λ i, Streamlit.manual_refresh (Home.ui i) = false
                  ∧ Streamlit.auto_refresh (Home.ui i) = true) inputs →
     Forall (λ e, is_Some (Streamlit.rendered e))
       (fst (Home.runs inputs Home.init)) →
     Home.sent (snd (Home.runs inputs Home.init)) = length inputs)
  ∧ (∀ inputs,
     Forall (λ i, Streamlit.manual_refresh (WeatherLive.ui i) = false
                  ∧ Streamlit.auto_refresh (WeatherLive.ui i) = true) inputs →
     Forall (λ e, is_Some (Streamlit.rendered e))
       (fst (WeatherLive.runs inputs WeatherLive.init)) →
     WeatherLive.sent (snd (WeatherLive.runs inputs WeatherLive.init))
     = length inputs).
Proof.
  split; intros inputs Hin Hends.
  - by rewrite home_auto_runs_sent.
  - by rewrite weather_auto_runs_sent.
Qed.

(** Three runs of the weather page ten seconds apart, auto-refresh on:
    three requests, although the entry would live ten minutes. *)
Lemma auto_refresh_fetches_on_every_run_witness :
  let answer :=
    Py.Response 200 None ""
      (WeatherLive.Json (Some (WeatherLive.Reading 0 20%float 3%float))) in
  let on := Streamlit.Widgets 10 true false in
  let run_at s := WeatherLive.RunInput on answer
                    (Py.timedelta_seconds s) (Py.timedelta_seconds s)
                    (Py.timedelta_seconds s) in
  WeatherLive.sent
    (snd (WeatherLive.runs [run_at 0; run_at 10; run_at 20] WeatherLive.init))
  = 3%nat.
Proof.
  intros answer on run_at.
  apply (proj2 auto_refresh_fetches_on_every_run
           [run_at 0; run_at 10; run_at 20]).
  - by repeat constructor.
  - vm_compute. repeat constructor; by eexists.
Defined.

(** ** Answers without prices *)



(** X9.  An empty JSON object is an answer, not an error: the run shows
    an empty table and no warning, the sample prices are not used, and
    nothing is appended: the history is only pruned. *)
Theorem empty_answer_records_nothing i s retry_after error_text :
  Streamlit.manual_refresh (Home.ui i) = false →
  Streamlit.cached Home.TTL (Home.cache s) Home.API_URL (Home.cache_clock i) = None →
  Home.net i Home.API_URL
  = Py.Response 200 retry_after error_text (Home.Json (Home.JNested [])) →
  let h := Home.prune_history (Home.prune_clock i) (Home.price_history s) in
  Streamlit.rendered (fst (Home.run i s))
  = Some (Home.Page None [] (map (Home.metric_of h) Home.COINS) h)
  ∧ Home.price_history (snd (Home.run i s)) = h
  ∧ Home.sent (snd (Home.run i s)) = S (Home.sent s).
Proof.
  intros Hb Hmiss Hnet h.
  assert (fst (Home.fetch_prices_body (Home.net i) Home.API_URL (Home.sent s))
          = Py.Ret (Some [], None)) as Hbody.
  { unfold Home.fetch_prices_body. by rewrite Hnet. }
  pose proof (fetch_prices_miss_returns _ _ (Home.cache_clock i) _ _ _
                Hmiss Hbody) as Hf.
  rewrite (home_run_renders i s (Some []) None _ _ [] Hb Hf eq_refl
             (or_introl eq_refl)).
  unfold Home.samples_of. simpl map. rewrite app_nil_r. fold h.
  by destruct (Streamlit.auto_refresh _).
Qed.

(** An empty answer after two recorded prices. *)
Lemma empty_answer_records_nothing_witness :
  let earlier := [Home.Sample 0 "bitcoin" 70000%float;
                  Home.Sample 0 "ethereum" 4000%float] in
  let s := Home.Session ∅ earlier 1 in
  let t := Py.timedelta_minutes 1 in
  let i := Home.RunInput (Streamlit.Widgets 30 false false)
             (λ _, Py.Response 200 None "" (Home.Json (Home.JNested []))) t t t in
  Streamlit.rendered (fst (Home.run i s))
  = Some (Home.Page None []
            [Home.Metric "bitcoin" (Some 70000%float) None;
             Home.Metric "ethereum" (Some 4000%float) None]
            earlier)
  ∧ Home.price_history (snd (Home.run i s)) = earlier
  ∧ Home.sent (snd (Home.run i s)) = 2%nat.
Proof.
  intros earlier s t i.
  apply (empty_answer_records_nothing i s None ""); reflexivity.
Defined.

(** ** The order and the window of the price history *)

Section window_facts.
Import Py Streamlit.

Lemma nondecreasing_app {A} (ts : A → Z) l1 l2 :
  nondecreasing ts l1 → nondecreasing ts l2 →
  (∀ x y, x ∈ l1 → y ∈ l2 → ts x ≤ ts y) →
  nondecreasing ts (l1 ++ l2).
Proof.
  unfold nondecreasing. intros H1 H2 Hle. rewrite fmap_app.
  apply StronglySorted_app_2; [|done..].
  intros t1 t2 (x & -> & Hx)%list_elem_of_fmap (y & -> & Hy)%list_elem_of_fmap.
  by apply Hle.
Qed.

Lemma nondecreasing_suffix {A} (ts : A → Z) l1 l2 :
  l1 `suffix_of` l2 → nondecreasing ts l2 → nondecreasing ts l1.
Proof.
  unfold nondecreasing. intros [k ->]. rewrite fmap_app.
  apply StronglySorted_app_1_r.
Qed.

Lemma samples_of_nondecreasing now d :
  nondecreasing Home.ts (Home.samples_of now d).
Proof.
  unfold nondecreasing. induction d as [|r d IH]; csimpl; constructor; [done|].
  apply Forall_forall.
  intros t (x & -> & Hx)%list_elem_of_fmap. simpl.
  apply (samples_of_ts now d) in Hx. lia.
Qed.

(** On a deque in time order, what the loop leaves is within the
    window. *)
Lemma popleft_while_window {A} (ts : A → Z) cutoff q :
  nondecreasing ts q → Forall (λ x, cutoff ≤ ts x) (popleft_while ts cutoff q).
Proof.
  intros Hq. rewrite popleft_while_sorted by done.
  apply Forall_forall. by intros x [Hx _]%list_elem_of_filter.
Qed.

Lemma home_run_rendered_history i s :
  is_Some (rendered (fst (Home.run i s))) →
  ∃ d, Home.price_history (snd (Home.run i s))
       = Home.prune_history (Home.prune_clock i)
           (Home.price_history s ++ Home.samples_of (Home.now i) d).
Proof.
  unfold Home.run. destruct (manual_refresh (Home.ui i)).
  { by intros [? [=]]. }
  destruct (Home.fetch_prices _ _ _ _ _) as [[[[df err]|e] c] n]; simpl.
  2:{ by intros [? [=]]. }
  destruct (if truthy err then Some Home.SAMPLE_DF else df) as [d|].
  2:{ by intros [? [=]]. }
  destruct (Home.has_column d Home.VS) eqn:Hcol.
  - rewrite append_rows_complete by done. intros _. exists d.
    by destruct (auto_refresh _).
  - rewrite append_rows_no_column by done. destruct d as [|r d].
    + intros _. exists []. simpl. rewrite app_nil_r.
      by destruct (auto_refresh _).
    + by intros [? [=]].
Qed.

Lemma home_run_ordered i s :
  nondecreasing Home.ts (Home.price_history s) →
  (∀ x, x ∈ Home.price_history s → Home.ts x ≤ Home.now i) →
  nondecreasing Home.ts (Home.price_history (snd (Home.run i s)))
  ∧ (∀ x, x ∈ Home.price_history (snd (Home.run i s)) → Home.ts x ≤ Home.now i)
  ∧ (is_Some (rendered (fst (Home.run i s))) →
     Forall (λ x, Home.prune_clock i - timedelta_minutes Home.WINDOW_MINUTES
                  ≤ Home.ts x)
       (Home.price_history (snd (Home.run i s)))).
Proof.
  intros Hord Hle.
  assert (∀ d, nondecreasing Home.ts
                 (Home.price_history s ++ Home.samples_of (Home.now i) d))
    as Happ.
  { intros d. apply nondecreasing_app; [done|apply samples_of_nondecreasing|].
    intros x y Hx Hy%samples_of_ts. rewrite Hy. by apply Hle. }
  split; [|split].
  - destruct (home_run_history i s) as [->|(df & err & c & n & d & _ & _ & ->)];
      [done|].
    eapply nondecreasing_suffix; [apply popleft_while_suffix|apply Happ].
  - destruct (home_run_history i s) as [->|(df & err & c & n & d & _ & _ & ->)];
      [done|].
    intros x Hx. eapply elem_of_suffix in Hx; [|apply popleft_while_suffix].
    apply elem_of_app in Hx as [Hx|Hx%samples_of_ts]; [by apply Hle|lia].
  - intros Hr. destruct (home_run_rendered_history i s Hr) as [d ->].
    apply popleft_while_window, Happ.
Qed.

Lemma home_runs_ordered inputs : ∀ s,
  nondecreasing Home.ts (Home.price_history s) →
  StronglySorted Z.le (Home.now <$> inputs) →
  Forall (λ i, ∀ x, x ∈ Home.price_history s → Home.ts x ≤ Home.now i) inputs →
  nondecreasing Home.ts (Home.price_history (snd (Home.runs inputs s)))
  ∧ ∀ b, (∀ x, x ∈ Home.price_history s → Home.ts x ≤ b) →
         Forall (λ i, Home.now i ≤ b) inputs →
         ∀ x, x ∈ Home.price_history (snd (Home.runs inputs s)) → Home.ts x ≤ b.
Proof.
  induction inputs as [|i inputs IH]; intros s Hord Hsorted Hle.
  { split; [done|]. intros b Hb _ x Hx. by apply Hb. }
  rewrite fmap_cons in Hsorted.
  apply StronglySorted_inv in Hsorted as [Hsorted Hi].
  apply Forall_cons in Hle as [Hlei Hle].
  destruct (home_run_ordered i s Hord Hlei) as (Hord' & Hle' & _).
  rewrite home_runs_cons.
  destruct (IH (snd (Home.run i s)) Hord' Hsorted) as [Hfinal Hbound].
  { rewrite Forall_fmap in Hi. rewrite Forall_forall in Hi |- *.
    intros j Hj x Hx. specialize (Hi j Hj). specialize (Hle' x Hx).
    simpl in Hi. lia. }
  split; [done|]. intros b Hb Hnows x Hx.
  apply Forall_cons in Hnows as [Hnow Hnows].
  apply (Hbound b); [|done|done].
  intros y Hy. specialize (Hle' y Hy). lia.
Qed.

End window_facts.

(** X10.  On the price page, from a fresh session and with clock
    readings [now] that never go back from one run to the next, the
    whole history stays in time order, and after every run that shows
    its page every retained sample is within the window: its timestamp
    is not older than that run's cutoff. *)
Theorem price_history_stays_ordered_and_in_window :
  ∀ inputs i,
    StronglySorted Z.le (Home.now <$> inputs ++ [i]) →
    let s := snd (Home.runs inputs Home.init) in
    nondecreasing Home.ts (Home.price_history (snd (Home.run i s)))
    ∧ (is_Some (Streamlit.rendered (fst (Home.run i s))) →
       Forall (λ x, Home.prune_clock i - Py.timedelta_minutes Home.WINDOW_MINUTES
                    ≤ Home.ts x)
         (Home.price_history (snd (Home.run i s)))).
Proof.
  intros inputs i Hsorted s. rewrite fmap_app in Hsorted.
  apply StronglySorted_app in Hsorted as (Hlast & Hsorted & _).
  destruct (home_runs_ordered inputs Home.init) as [Hord Hbound];
    [constructor|done|..].
  { apply Forall_forall. intros j _ x Hx. by apply elem_of_nil in Hx. }
  destruct (home_run_ordered i s Hord) as (Hord' & _ & Hwindow); [|done].
  apply (Hbound (Home.now i)).
  - intros x Hx. by apply elem_of_nil in Hx.
  - apply Forall_forall. intros j Hj. apply Hlast.
    + apply list_elem_of_fmap. by exists j.
    + apply list_elem_of_singleton. reflexivity.
Qed.

(** Runs at minutes 0, 20 and 40 of the price page: after the third the
    samples of minute 0 are gone and the rest is in order. *)
Lemma price_history_stays_ordered_and_in_window_witness :
  let prices := λ _ : string,
    Py.Response 200 None ""
      (Home.Json (Home.JNested [("bitcoin", [("usd", 70000%float)])])) in
  let on := Streamlit.Widgets 30 true false in
  let run_at m := Home.RunInput on prices (Py.timedelta_minutes m)
                    (Py.timedelta_minutes m) (Py.timedelta_minutes m) in
  let s := snd (Home.runs [run_at 0; run_at 20] Home.init) in
  let h := Home.price_history (snd (Home.run (run_at 40) s)) in
  Home.ts <$> h = [Py.timedelta_minutes 20; Py.timedelta_minutes 40]
  ∧ nondecreasing Home.ts h
  ∧ Forall (λ x, Py.timedelta_minutes 40 - Py.timedelta_minutes 30 ≤ Home.ts x) h.
Proof.
  intros prices on run_at s h. split; [reflexivity|].
  destruct (price_history_stays_ordered_and_in_window
              [run_at 0; run_at 20] (run_at 40)) as [Hord Hwindow].
  - vm_compute. repeat (constructor; [|repeat constructor; discriminate]).
    constructor.
  - split; [exact Hord|]. apply Hwindow. vm_compute. by eexists.
Defined.

(** ** The metric of a coin and the order of the history *)

Section latest_facts.
Import Py.
Implicit Types (l h : list Home.sample) (x y : Home.sample).

Lemma insert_by_ts_perm x l : Home.insert_by_ts x l ≡ₚ x :: l.
Proof.
  induction l as [|y l IH]; simpl; [done|].
  destruct (Home.ts y <=? Home.ts x); [|done].
  rewrite IH. apply Permutation_swap.
Qed.

Lemma sort_values_perm l : Home.sort_values l ≡ₚ l.
Proof.
  induction l as [|x l IH] using rev_ind; [done|].
  rewrite sort_values_snoc, insert_by_ts_perm, IH.
  by rewrite Permutation_app_comm.
Qed.

Lemma insert_by_ts_sorted x l :
  nondecreasing Home.ts l → nondecreasing Home.ts (Home.insert_by_ts x l).
Proof.
  unfold nondecreasing. induction l as [|y l IH]; simpl.
  { intros _. by repeat constructor. }
  intros [Hy Hl]%StronglySorted_cons.
  destruct (Z.leb_spec (Home.ts y) (Home.ts x)) as [Hle|Hlt]; csimpl.
  - apply StronglySorted_cons. split; [|by apply IH].
    rewrite Forall_fmap. apply Forall_forall. intros z Hz.
    rewrite insert_by_ts_perm in Hz. apply elem_of_cons in Hz as [->|Hz]; [done|].
    rewrite Forall_fmap, Forall_forall in Hy. by apply Hy.
  - apply StronglySorted_cons. split.
    + constructor; [lia|]. eapply Forall_impl; [exact Hy|]. simpl. intros; lia.
    + by apply StronglySorted_cons.
Qed.

Lemma sort_values_sorted l : nondecreasing Home.ts (Home.sort_values l).
Proof.
  induction l as [|x l IH] using rev_ind; [constructor|].
  rewrite sort_values_snoc. by apply insert_by_ts_sorted.
Qed.

Lemma nondecreasing_last l x y :
  nondecreasing Home.ts (l ++ [x]) → y ∈ l ++ [x] → Home.ts y ≤ Home.ts x.
Proof.
  unfold nondecreasing. rewrite fmap_app.
  intros Hs [Hy|Hy%list_elem_of_singleton]%elem_of_app; [|subst; lia].
  eapply (StronglySorted_app_1_elem_of _ _ _ _ _ Hs).
  - apply list_elem_of_fmap. by exists y.
  - apply list_elem_of_singleton. reflexivity.
Qed.

End latest_facts.

(** X11.  The value a coin's metric shows is the price of a sample of
    that coin with the latest timestamp in the history, wherever that
    sample sits in the deque; the metric shows no value only when the
    history holds no sample of the coin. *)
Theorem price_metric_shows_latest_sample :
  ∀ h c,
    match fst (Home.compute (Home.series_view h c)) with
    | Some p =>
        ∃ x, x ∈ h ∧ Home.coin x = c ∧ Home.price x = p
             ∧ ∀ y, y ∈ h → Home.coin y = c → Home.ts y ≤ Home.ts x
    | None => ∀ x, x ∈ h → Home.coin x ≠ c
    end.
Proof.
  intros h c.
  pose proof (sort_values_perm (filter (λ s, Home.coin s = c) h)) as Hperm.
  pose proof (sort_values_sorted (filter (λ s, Home.coin s = c) h)) as Hsorted.
  unfold Home.series_view.
  destruct (Home.sort_values (filter (λ s, Home.coin s = c) h))
    as [|x view _] using rev_ind.
  - simpl. intros x Hx Hc.
    assert (x ∈ filter (λ s, Home.coin s = c) h) as Hin
      by (by apply list_elem_of_filter).
    rewrite <- Hperm in Hin. by apply elem_of_nil in Hin.
  - rewrite home_compute_snoc. simpl.
    assert (x ∈ filter (λ s, Home.coin s = c) h) as [Hc Hx]%list_elem_of_filter.
    { rewrite <- Hperm. apply elem_of_app. right. apply list_elem_of_here. }
    exists x. repeat split; try done.
    intros y Hy Hyc. apply (nondecreasing_last view); [done|].
    rewrite Hperm. by apply list_elem_of_filter.
Qed.

(** ** Missing measurements on the weather page *)

(** The rows of the temperature chart: [hist.dropna(subset=
    ["temperature"])] when the history frame is not empty and some
    temperature is present, no chart (the notice) otherwise. *)
Definition tdf (hist : list WeatherLive.sample) : option (list WeatherLive.sample) :=
  if (0 <? Py.len hist)
     && existsb (λ x, negb (WeatherLive.isna_cell (WeatherLive.temp x))) hist
  then Some (filter (λ x, WeatherLive.isna_cell (WeatherLive.temp x) = false) hist)
  else None.

(** The rows of the wind chart. *)
Definition wdf2 (hist : list WeatherLive.sample) : option (list WeatherLive.sample) :=
  if (0 <? Py.len hist)
     && existsb (λ x, negb (WeatherLive.isna_cell (WeatherLive.wnd x))) hist
  then Some (filter (λ x, WeatherLive.isna_cell (WeatherLive.wnd x) = false) hist)
  else None.

Section missing_facts.
Import Py Streamlit.

Lemma float_or_none_present v :
  WeatherLive.present (WeatherLive.float_or_none v) = WeatherLive.float_or_none v.
Proof.
  unfold WeatherLive.float_or_none, WeatherLive.present, notna.
  by destruct (isna v) eqn:Hv; simpl; rewrite ?Hv.
Qed.

Lemma weather_run_clean i s :
  Forall (λ x, WeatherLive.present (WeatherLive.temp x) = WeatherLive.temp x
               ∧ WeatherLive.present (WeatherLive.wnd x) = WeatherLive.wnd x)
    (WeatherLive.weather_history s) →
  Forall (λ x, WeatherLive.present (WeatherLive.temp x) = WeatherLive.temp x
               ∧ WeatherLive.present (WeatherLive.wnd x) = WeatherLive.wnd x)
    (WeatherLive.weather_history (snd (WeatherLive.run i s))).
Proof.
  intros Hh.
  destruct (weather_run_history i s)
    as [->|(wdf & werr & c & n & r & d & _ & _ & ->)]; [done|].
  destruct (popleft_while_suffix WeatherLive.ts
              (WeatherLive.prune_clock i - timedelta_hours WeatherLive.WINDOW_HOURS)
              (WeatherLive.weather_history s ++ [weather_record r])) as [old Hold].
  unfold WeatherLive.prune_weather.
  assert (Forall (λ x, WeatherLive.present (WeatherLive.temp x) = WeatherLive.temp x
                       ∧ WeatherLive.present (WeatherLive.wnd x) = WeatherLive.wnd x)
            (WeatherLive.weather_history s ++ [weather_record r])) as Hall.
  { apply Forall_app. split; [done|]. repeat constructor; simpl;
      apply float_or_none_present. }
  rewrite Hold in Hall. by apply Forall_app in Hall as [_ ?].
Qed.

Lemma weather_runs_clean inputs : ∀ s,
  Forall (λ x, WeatherLive.present (WeatherLive.temp x) = WeatherLive.temp x
               ∧ WeatherLive.present (WeatherLive.wnd x) = WeatherLive.wnd x)
    (WeatherLive.weather_history s) →
  Forall (λ x, WeatherLive.present (WeatherLive.temp x) = WeatherLive.temp x
               ∧ WeatherLive.present (WeatherLive.wnd x) = WeatherLive.wnd x)
    (WeatherLive.weather_history (snd (WeatherLive.runs inputs s))).
Proof.
  induction inputs as [|i inputs IH]; intros s Hs; [done|].
  rewrite weather_runs_cons. by apply IH, weather_run_clean.
Qed.

Lemma existsb_app_false {A} (f : A → bool) l x :
  f x = false → existsb f (l ++ [x]) = existsb f l.
Proof. intros Hx. rewrite existsb_app. simpl. rewrite Hx. by destruct (existsb f l). Qed.

End missing_facts.

(** X12.  From a fresh session, whatever the runs, the weather history
    never holds a NaN: every recorded temperature and wind speed is
    either missing ([None]) or a number that is not NaN. *)
Theorem weather_history_never_holds_nan :
  ∀ inputs x,
    x ∈ WeatherLive.weather_history (snd (WeatherLive.runs inputs WeatherLive.init)) →
    (∀ v, WeatherLive.temp x = Some v → Py.isna v = false)
    ∧ (∀ v, WeatherLive.wnd x = Some v → Py.isna v = false).
Proof.
  intros inputs x Hx.
  pose proof (weather_runs_clean inputs WeatherLive.init (Forall_nil_2 _))
    as Hruns.
  rewrite Forall_forall in Hruns. destruct (Hruns x Hx) as [Ht Hw].
  unfold WeatherLive.present in Ht, Hw.
  split; intros v Hv.
  - rewrite Hv in Ht. simpl in Ht. by destruct (Py.isna v).
  - rewrite Hv in Hw. simpl in Hw. by destruct (Py.isna v).
Qed.

(** A failed fetch and an answer: the fallback record holds [None], not
    the NaN of the fallback row. *)
Lemma weather_history_never_holds_nan_witness :
  let failed :=
    WeatherLive.RunInput (Streamlit.Widgets 30 true false)
      (Py.ConnectionFailed "timed out") 0 0 0 in
  let later := Py.timedelta_seconds 30 in
  let answered :=
    WeatherLive.RunInput (Streamlit.Widgets 30 true false)
      (Py.Response 200 None "" (WeatherLive.Json (Some
         (WeatherLive.Reading 0 20%float 3%float))))
      later later later in
  let h := WeatherLive.weather_history
             (snd (WeatherLive.runs [failed; answered] WeatherLive.init)) in
  let fallback := WeatherLive.Sample 0 None None in
  h = [fallback; WeatherLive.Sample 0 (Some 20%float) (Some 3%float)]
  ∧ (∀ v, WeatherLive.temp fallback = Some v → Py.isna v = false)
  ∧ (∀ v, WeatherLive.wnd fallback = Some v → Py.isna v = false).
Proof.
  intros failed later answered h fallback. split; [reflexivity|].
  apply (weather_history_never_holds_nan [failed; answered] fallback).
  apply list_elem_of_here.
Defined.

(** X13.  The charts of the weather page plot the records that have the
    measurement, in the order of the history, and nothing else; a
    record without it, such as the fallback of a failed fetch, changes
    neither chart; and there is no chart exactly when no record has the
    measurement. *)
Theorem weather_charts_skip_missing_measurements :
  (∀ hist rows,
     tdf hist = Some rows →
     rows = filter (λ x, WeatherLive.isna_cell (WeatherLive.temp x) = false) hist
     ∧ rows ≠ []
     ∧ Forall (λ x, ∃ v, WeatherLive.temp x = Some v ∧ Py.isna v = false) rows)
  ∧ (∀ hist,
     tdf hist = None
     ↔ Forall (λ x, WeatherLive.isna_cell (WeatherLive.temp x) = true) hist)
  ∧ (∀ hist t w,
     tdf (hist ++ [WeatherLive.Sample t None w]) = tdf hist)
  ∧ (∀ hist t v,
     wdf2 (hist ++ [WeatherLive.Sample t v None]) = wdf2 hist).
Proof.
  assert (∀ hist : list WeatherLive.sample,
            existsb (λ x, negb (WeatherLive.isna_cell (WeatherLive.temp x))) hist
            = false
            ↔ Forall (λ x, WeatherLive.isna_cell (WeatherLive.temp x) = true) hist)
    as Hnone.
  { induction hist as [|x hist IH]; simpl; [done|].
    rewrite Forall_cons, <- IH.
    destruct (WeatherLive.isna_cell (WeatherLive.temp x)); simpl;
      (split; [intros ?; by split|by intros [? ?]]). }
  split; [|split; [|split]].
  - intros hist rows. unfold tdf.
    destruct (0 <? Py.len hist); simpl; [|done].
    destruct (existsb _ hist) eqn:Hex; [|done]. intros [= <-].
    split; [done|]. split.
    + intros Hnil. apply existsb_exists in Hex as (x & Hx & Hpresent).
      apply list_elem_of_In in Hx.
      assert (x ∈ filter
                (λ x, WeatherLive.isna_cell (WeatherLive.temp x) = false) hist)
        as Hin.
      { apply list_elem_of_filter. split; [|done]. by apply negb_true_iff. }
      rewrite Hnil in Hin. by apply elem_of_nil in Hin.
    + apply Forall_forall. intros x [Hx _]%list_elem_of_filter.
      destruct (WeatherLive.temp x) as [v|]; [|done]. by exists v.
  - intros hist. unfold tdf. rewrite <- Hnone.
    destruct hist as [|x hist]; [split; intros _; reflexivity|].
    change (0 <? Py.len (x :: hist)) with true.
    destruct (existsb _ (x :: hist)); simpl; split; intros H;
      by try discriminate H.
  - intros hist t w. unfold tdf.
    rewrite existsb_app_false by done.
    rewrite filter_app, filter_cons_False, filter_nil, app_nil_r by done.
    rewrite len_app. change (Py.len [_]) with 1.
    destruct hist as [|x hist]; [done|].
    pose proof (len_nonneg hist).
    replace (0 <? Py.len (x :: hist) + 1) with true; [done|].
    symmetry. apply Z.ltb_lt. pose proof (len_nonneg (x :: hist)). lia.
  - intros hist t v. unfold wdf2.
    rewrite existsb_app_false by done.
    rewrite filter_app, filter_cons_False, filter_nil, app_nil_r by done.
    rewrite len_app. change (Py.len [_]) with 1.
    destruct hist as [|x hist]; [done|].
    replace (0 <? Py.len (x :: hist) + 1) with true; [done|].
    symmetry. apply Z.ltb_lt. pose proof (len_nonneg (x :: hist)). lia.
Qed.

(** ** What the weather page shows after a run *)

Section weather_metric_facts.
Import Py Streamlit.

Lemma popleft_while_all_older {A} (ts : A → Z) cutoff q :
  Forall (λ x, ts x < cutoff) q → popleft_while ts cutoff q = [].
Proof.
  induction 1 as [|x q Hx _ IH]; simpl; [done|].
  by rewrite (proj2 (Z.ltb_lt _ _) Hx).
Qed.

Lemma weather_compute_snoc col c :
  WeatherLive.compute (col ++ [c])
  = (WeatherLive.present c,
     match last col with
     | Some p =>
         match WeatherLive.present p, WeatherLive.present c with
         | Some a, Some b => Some (b - a)%float
         | _, _ => None
         end
     | None => None
     end).
Proof.
  destruct col as [|p col _] using rev_ind.
  - destruct c as [x|]; [|done].
    unfold WeatherLive.compute, WeatherLive.present. simpl.
    by destruct (isna x).
  - rewrite <- (assoc_L (++)). simpl (_ ++ [c]).
    by rewrite weather_compute_two, last_snoc.
Qed.

End weather_metric_facts.

(** X14.  A weather record older than the cutoff is pruned by the run
    that records it.  When every earlier record is older than the
    cutoff too (as in a fresh session), for instance because the answer
    reports a time more than six hours behind the clock, the run shows
    its page with an empty history and no metric, although the fetch
    succeeded. *)
Theorem stale_weather_record_is_pruned_at_once i s wdf werr c n r d :
  Streamlit.manual_refresh (WeatherLive.ui i) = false →
  WeatherLive.get_weather (WeatherLive.net i) (WeatherLive.cache_clock i)
    (WeatherLive.cache s) (WeatherLive.sent s) = (Py.Ret (wdf, werr), c, n) →
  weather_shown i wdf werr = Some (r :: d) →
  let cutoff := WeatherLive.prune_clock i
                - Py.timedelta_hours WeatherLive.WINDOW_HOURS in
  Forall (λ x, WeatherLive.ts x < cutoff) (WeatherLive.weather_history s) →
  WeatherLive.wtime r < cutoff →
  WeatherLive.weather_history (snd (WeatherLive.run i s)) = []
  ∧ ∃ p, Streamlit.rendered (fst (WeatherLive.run i s)) = Some p
         ∧ WeatherLive.table p = r :: d
         ∧ WeatherLive.chart p = []
         ∧ WeatherLive.temperature_metric p = (None, None)
         ∧ WeatherLive.wind_metric p = (None, None).
Proof.
  intros Hb Hf Hd cutoff Hold Hr.
  rewrite (weather_run_renders i s wdf werr c n r d) by done.
  assert (WeatherLive.prune_weather (WeatherLive.prune_clock i)
            (WeatherLive.weather_history s ++ [weather_record r]) = []) as ->.
  { apply popleft_while_all_older, Forall_app. split; [done|].
    by repeat constructor. }
  split; [by destruct (Streamlit.auto_refresh _)|].
  eexists. by split.
Qed.

(** A fresh session at noon and an answer that reports five in the
    morning. *)
Lemma stale_weather_record_is_pruned_at_once_witness :
  let noon := Py.timedelta_hours 12 in
  let answer :=
    Py.Response 200 None ""
      (WeatherLive.Json (Some (WeatherLive.Reading (Py.timedelta_hours 5)
                                 20%float 3%float))) in
  let i := WeatherLive.RunInput (Streamlit.Widgets 30 false false)
             answer noon noon noon in
  WeatherLive.weather_history (snd (WeatherLive.run i WeatherLive.init)) = []
  ∧ ∃ p, Streamlit.rendered (fst (WeatherLive.run i WeatherLive.init)) = Some p
         ∧ WeatherLive.table p
           = [WeatherLive.WRow (Py.timedelta_hours 5) 20%float 3%float]
         ∧ WeatherLive.chart p = []
         ∧ WeatherLive.temperature_metric p = (None, None)
         ∧ WeatherLive.wind_metric p = (None, None).
Proof.
  intros noon answer i.
  assert (∃ c n,
            WeatherLive.get_weather (WeatherLive.net i) (WeatherLive.cache_clock i)
              (WeatherLive.cache WeatherLive.init) (WeatherLive.sent WeatherLive.init)
            = (Py.Ret (Some [WeatherLive.WRow (Py.timedelta_hours 5)
                               20%float 3%float], None), c, n))
    as (c & n & Hf).
  { eexists _, _. vm_compute. reflexivity. }
  apply (stale_weather_record_is_pruned_at_once i WeatherLive.init _ _ c n
           (WeatherLive.WRow (Py.timedelta_hours 5) 20%float 3%float) []
           eq_refl Hf eq_refl).
  - constructor.
  - reflexivity.
Defined.

(** X15.  After a run of the weather page whose record survives the
    pruning, each metric shows the measurement just recorded (nothing
    when it is missing) and, as delta, that measurement minus the one of
    the record appended before it, by the order of the deque and not of
    the timestamps; the delta is absent when there is no earlier record
    left or when either measurement is missing. *)
Theorem weather_metrics_follow_append_order i s wdf werr c n r d :
  Streamlit.manual_refresh (WeatherLive.ui i) = false →
  WeatherLive.get_weather (WeatherLive.net i) (WeatherLive.cache_clock i)
    (WeatherLive.cache s) (WeatherLive.sent s) = (Py.Ret (wdf, werr), c, n) →
  weather_shown i wdf werr = Some (r :: d) →
  WeatherLive.prune_clock i - Py.timedelta_hours WeatherLive.WINDOW_HOURS
    ≤ WeatherLive.wtime r →
  let earlier := WeatherLive.prune_weather (WeatherLive.prune_clock i)
                   (WeatherLive.weather_history s) in
  let delta (before now : option float) :=
    match WeatherLive.present before, WeatherLive.present now with
    | Some a, Some b => Some (b - a)%float
    | _, _ => None
    end in
  ∃ p, Streamlit.rendered (fst (WeatherLive.run i s)) = Some p
       ∧ WeatherLive.chart p = earlier ++ [weather_record r]
       ∧ WeatherLive.temperature_metric p
         = (WeatherLive.float_or_none (WeatherLive.temperature r),
            last earlier ≫= λ prev,
              delta (WeatherLive.temp prev)
                    (WeatherLive.float_or_none (WeatherLive.temperature r)))
       ∧ WeatherLive.wind_metric p
         = (WeatherLive.float_or_none (WeatherLive.wind r),
            last earlier ≫= λ prev,
              delta (WeatherLive.wnd prev)
                    (WeatherLive.float_or_none (WeatherLive.wind r))).
Proof.
  intros Hb Hf Hd Hcut earlier delta.
  rewrite (weather_run_renders i s wdf werr c n r d) by done.
  assert (WeatherLive.prune_weather (WeatherLive.prune_clock i)
            (WeatherLive.weather_history s ++ [weather_record r])
          = earlier ++ [weather_record r]) as ->.
  { unfold WeatherLive.prune_weather. by rewrite popleft_while_app. }
  eexists. split; [reflexivity|]. unfold weather_page.
  cbn [WeatherLive.chart WeatherLive.temperature_metric WeatherLive.wind_metric].
  split; [done|].
  rewrite !map_app. simpl (map _ [_]). rewrite !weather_compute_snoc.
  subst delta. cbv beta. rewrite !float_or_none_present. clearbody earlier.
  split; f_equal; destruct earlier as [|x earlier' _] using rev_ind; try done;
    rewrite map_app; simpl (map _ [_]); by rewrite !last_snoc.
Qed.

(** The reported times go back from 00:15 to 00:00: the delta is still
    the second reading minus the first. *)
Lemma weather_metrics_follow_append_order_witness :
  let first := WeatherLive.Sample (Py.timedelta_minutes 15)
                 (Some 20%float) (Some 3%float) in
  let s := WeatherLive.Session ∅ [first] 1 in
  let answer :=
    Py.Response 200 None ""
      (WeatherLive.Json (Some (WeatherLive.Reading 0 18%float 4%float))) in
  let t := Py.timedelta_minutes 20 in
  let i := WeatherLive.RunInput (Streamlit.Widgets 30 false false) answer t t t in
  ∃ p, Streamlit.rendered (fst (WeatherLive.run i s)) = Some p
       ∧ WeatherLive.chart p
         = [first; WeatherLive.Sample 0 (Some 18%float) (Some 4%float)]
       ∧ WeatherLive.temperature_metric p = (Some 18%float, Some (-2)%float)
       ∧ WeatherLive.wind_metric p = (Some 4%float, Some 1%float).
Proof.
  intros first s answer t i.
  assert (∃ c n,
            WeatherLive.get_weather (WeatherLive.net i) (WeatherLive.cache_clock i)
              (WeatherLive.cache s) (WeatherLive.sent s)
            = (Py.Ret (Some [WeatherLive.WRow 0 18%float 4%float], None), c, n))
    as (c & n & Hf).
  { eexists _, _. vm_compute. reflexivity. }
  apply (weather_metrics_follow_append_order i s _ _ c n
           (WeatherLive.WRow 0 18%float 4%float) [] eq_refl Hf eq_refl).
  vm_compute. discriminate.
Defined.
